(** * Customer-Order-Detail: the [clean_data] pipeline and the Deli/FOC split

    A shallow embedding of [src/customerorderdetail.py]:

    - the three regular expressions of the source, written as syntax trees and
      run by a small greedy backtracking matcher in the manner of Python's
      [re] ([re.search]: leftmost match, greedy quantifiers);
    - the pandas operations the function uses ([where], [ffill], the [.str]
      accessor, boolean row masks, [dropna], column projection) over a
      column-oriented table with a row index;
    - [clean_data] (lines 24-73) and the partition of [main] (lines 113-114);
    - the file names of [main] (lines 116-119) and the anchor built by
      [get_download_link] (lines 75-83), with the workbook writer and the
      base64 encoder as parameters.

    The definitions come first: the matcher, the pandas operations, the
    pipeline, the closed forms of its columns and the tables of the worked
    examples.  The lemmas and the theorems on the pipeline follow.

    Modelling boundaries.  Text is ASCII, so [\d] is [0-9] and [\s] is the
    ASCII part of Python's white space.  A text column is an object column:
    its cells are strings, missing, or other scalars on which the [.str]
    methods answer missing.  [pd.to_datetime(..., errors='coerce')] belongs to
    pandas, not to this repository: it is taken as a parameter
    [parse_date : string -> option date] applied cell by cell. *)

From Stdlib Require Import String Ascii Bool Arith Lia ZArith.
From Stdlib Require Import List Permutation Sorted.
Import ListNotations.
Local Open Scope string_scope.
Local Open Scope nat_scope.
Local Open Scope list_scope.

Set Implicit Arguments.

(** ** Cells and dates *)

Record date := mkDate { year : nat; month : nat; day : nat }.

(** A cell of a table: missing ([NaN], [None], [NaT]), a Python [str], a
    number, or a timestamp. *)
Inductive cell :=
| NaN
| Str (s : string)
| Num (z : Z)
| Ts (d : date).

Definition isna (c : cell) : bool :=
  match c with NaN => true | _ => false end.

Definition notna (c : cell) : bool := negb (isna c).

(** ** Regular expressions: sequences of quantified character classes with
       capture-group marks, enough for the three patterns of the source. *)

Module Re.

Definition text := list ascii.

Inductive atom :=
| Rep (p : ascii -> bool) (lo : nat) (hi : option nat)  (* p{lo,hi}, greedy *)
| GOpen                                                (* ( *)
| GClose.                                              (* ) *)

Definition regex := list atom.

Definition is_digit (c : ascii) : bool :=
  let n := nat_of_ascii c in ((48 <=? n) && (n <=? 57))%nat.

(** Python's [\s] and [str.strip] white space, ASCII range:
    [\t \n \v \f \r], [\x1c]-[\x1f] and the space. *)
Definition is_space (c : ascii) : bool :=
  let n := nat_of_ascii c in
  (((9 <=? n) && (n <=? 13)) || ((28 <=? n) && (n <=? 31)) || (n =? 32))%nat.

(** [.] without DOTALL: anything but a line feed. *)
Definition is_dot (c : ascii) : bool := negb (nat_of_ascii c =? 10)%nat.

Arguments is_digit : simpl never.
Arguments is_space : simpl never.
Arguments is_dot : simpl never.

Definition Lit (c : ascii) : atom := Rep (Ascii.eqb c) 1 (Some 1).
Definition Digits (lo : nat) (hi : option nat) : atom := Rep is_digit lo hi.

Definition lits (s : string) : regex := map Lit (list_ascii_of_string s).

Fixpoint count_prefix (p : ascii -> bool) (s : text) : nat :=
  match s with
  | c :: s' => if p c then S (count_prefix p s') else 0
  | [] => 0
  end.

Definition greedy_max (p : ascii -> bool) (hi : option nat) (s : text) : nat :=
  match hi with
  | Some h => Nat.min h (count_prefix p s)
  | None => count_prefix p s
  end.

(** Try [n], [n-1], ..., [lo] repetitions, the longest first; [k] matches the
    rest of the pattern. *)
Fixpoint backtrack (A : Type) (k : text -> option A) (s : text) (lo n : nat)
  : option A :=
  if n <? lo then None
  else match k (skipn n s) with
       | Some r => Some r
       | None => match n with
                 | 0 => None
                 | S n' => backtrack k s lo n'
                 end
       end.

(** A match anchored at the start of [s]: the suffixes of [s] at each group
    mark, in pattern order, and what is left after the match. *)
Fixpoint match_here (r : regex) (s : text) : option (list text * text) :=
  match r with
  | [] => Some ([], s)
  | Rep p lo hi :: r' => backtrack (match_here r') s lo (greedy_max p hi s)
  | GOpen :: r' | GClose :: r' =>
      match match_here r' s with
      | Some (marks, rest) => Some (s :: marks, rest)
      | None => None
      end
  end.

Record found := mkFound { before : text; marks : list text; after : text }.

(** [re.search]: the leftmost position where the pattern matches. *)
Fixpoint search (r : regex) (s : text) : option found :=
  match match_here r s with
  | Some (ms, rest) => Some (mkFound [] ms rest)
  | None =>
      match s with
      | [] => None
      | c :: s' =>
          match search r s' with
          | Some f => Some (mkFound (c :: before f) (marks f) (after f))
          | None => None
          end
      end
  end.

Definition contains (r : regex) (s : text) : bool :=
  match search r s with Some _ => true | None => false end.

(** Text between two marks, given as the suffixes at the marks. *)
Definition between (opened closed : text) : text :=
  firstn (length opened - length closed) opened.

(** The two groups of a pattern with two capture groups. *)
Definition groups2 (f : found) : option (text * text) :=
  match marks f with
  | [o1; c1; o2; c2] => Some (between o1 c1, between o2 c2)
  | _ => None
  end.

(** [re.sub(r, '', s)]: every non-overlapping match removed, left to right.
    For patterns that match no empty text, as [order_pattern] is: each match
    then shortens what is left ([ReFacts.search_after_shorter]) and the fuel
    never runs out ([ReFacts.sub_fuel_enough]). *)
Fixpoint sub_fuel (fuel : nat) (r : regex) (s : text) : text :=
  match fuel with
  | 0 => s
  | S fuel' =>
      match search r s with
      | None => s
      | Some f => before f ++ sub_fuel fuel' r (after f)
      end
  end.

Definition sub (r : regex) (s : text) : text := sub_fuel (S (length s)) r s.

(** [re.sub(r, '', s, count=1)]: only the first match removed.  The source
    never calls it; the specification's reading of the removal step. *)
Definition sub_first (r : regex) (s : text) : text :=
  match search r s with
  | None => s
  | Some f => before f ++ after f
  end.

Fixpoint lstrip (s : text) : text :=
  match s with
  | c :: s' => if is_space c then lstrip s' else s
  | [] => []
  end.

Definition rstrip (s : text) : text := rev (lstrip (rev s)).

(** [str.strip()] *)
Definition strip (s : text) : text := rstrip (lstrip s).

Fixpoint starts_with (pre s : text) : bool :=
  match pre, s with
  | [], _ => true
  | a :: pre', b :: s' => Ascii.eqb a b && starts_with pre' s'
  | _ :: _, [] => false
  end.

(** [str.endswith(suf)] *)
Definition ends_with (suf s : text) : bool := starts_with (rev suf) (rev s).

(** date_pattern = r'\d{2}-\d{2}-\d{2}'  (line 34) *)
Definition date_pattern : regex :=
  [Digits 2 (Some 2); Lit "-"; Digits 2 (Some 2); Lit "-"; Digits 2 (Some 2)].

(** order_pattern = r"(\d{5,})\s+(\d{1,2}/\d{1,2}/\d{4})"  (line 45) *)
Definition order_pattern : regex :=
  [GOpen; Digits 5 None; GClose;
   Rep is_space 1 None;
   GOpen; Digits 1 (Some 2); Lit "/"; Digits 1 (Some 2); Lit "/";
   Digits 4 (Some 4); GClose].

(** 'Order No.' used as a regular expression (line 54): the final dot is a
    wildcard. *)
Definition marker_pattern : regex := lits "Order No" ++ [Rep is_dot 1 (Some 1)].

(** Least number of characters a match takes, and number of group marks. *)
Fixpoint min_len (r : regex) : nat :=
  match r with
  | [] => 0
  | Rep _ lo _ :: r' => lo + min_len r'
  | _ :: r' => min_len r'
  end.

Fixpoint mark_count (r : regex) : nat :=
  match r with
  | [] => 0
  | Rep _ _ _ :: r' => mark_count r'
  | _ :: r' => S (mark_count r')
  end.

(** Two digits, a hyphen, two digits, a hyphen, two digits. *)
Definition date_group (g : text) : Prop :=
  exists a b c d e f,
    g = [a; b; "-"; c; d; "-"; e; f]%char /\
    is_digit a = true /\ is_digit b = true /\ is_digit c = true /\
    is_digit d = true /\ is_digit e = true /\ is_digit f = true.

Definition has_date_group (s : text) : Prop :=
  exists pre g post, s = pre ++ g ++ post /\ date_group g.

End Re.

Definition txt (s : string) : Re.text := list_ascii_of_string s.
Definition untxt (t : Re.text) : string := string_of_list_ascii t.

(** ** pandas: Series *)

Definition series := list cell.

(** [Series.where(cond)]: the value where [cond] holds, missing elsewhere. *)
Fixpoint where_ (s : series) (cond : list bool) : series :=
  match s, cond with
  | c :: s', b :: cond' => (if b then c else NaN) :: where_ s' cond'
  | _, _ => []
  end.

(** [series != lit] and [series == lit], cell by cell: a missing cell or a
    cell that is no string differs from every string. *)
Definition ne_str (lit : string) (c : cell) : bool :=
  match c with Str s => negb (String.eqb s lit) | _ => true end.

Definition eq_str (lit : string) (c : cell) : bool :=
  match c with Str s => String.eqb s lit | _ => false end.

(** [Series.ffill()]: a missing cell takes the last value seen above it. *)
Fixpoint ffill_from (last : cell) (s : series) : series :=
  match s with
  | [] => []
  | c :: s' =>
      let v := if isna c then last else c in
      v :: ffill_from v s'
  end.

Definition ffill (s : series) : series := ffill_from NaN s.

(** The [.str] accessor on an object column: on a cell that is no string the
    boolean methods answer [na] and the others answer missing. *)
Definition str_contains (pat : Re.regex) (na : bool) (c : cell) : bool :=
  match c with Str s => Re.contains pat (txt s) | _ => na end.

Definition str_endswith (suf : string) (na : bool) (c : cell) : bool :=
  match c with Str s => Re.ends_with (txt suf) (txt s) | _ => na end.

(** [.str.extract(pat)] for a pattern with two groups: the groups of the
    first match, or two missing cells. *)
Definition extract_text (pat : Re.regex) (s : string) : option (string * string) :=
  match Re.search pat (txt s) with
  | Some f =>
      match Re.groups2 f with
      | Some (g1, g2) => Some (untxt g1, untxt g2)
      | None => None
      end
  | None => None
  end.

Definition str_extract (pat : Re.regex) (c : cell) : cell * cell :=
  match c with
  | Str s =>
      match extract_text pat s with
      | Some (g1, g2) => (Str g1, Str g2)
      | None => (NaN, NaN)
      end
  | _ => (NaN, NaN)
  end.

(** [.str.replace(pat, '', regex=True)] *)
Definition str_replace_empty (pat : Re.regex) (c : cell) : cell :=
  match c with Str s => Str (untxt (Re.sub pat (txt s))) | _ => NaN end.

(** [.str.strip()] *)
Definition str_strip (c : cell) : cell :=
  match c with Str s => Str (untxt (Re.strip (txt s))) | _ => NaN end.

(** ** pandas: DataFrame *)

Inductive result (A : Type) :=
| Ok (a : A)
| KeyError (col : string).

Arguments Ok {A} a.
Arguments KeyError {A} col.

Definition bind (A B : Type) (m : result A) (k : A -> result B) : result B :=
  match m with
  | Ok a => k a
  | KeyError col => KeyError col
  end.

Notation "x <- m ;; k" := (bind m (fun x => k))
  (at level 61, m at next level, right associativity).

(** Columns in their order, each with its cells in row order; [index] holds
    the row labels. *)
Record DataFrame := mkDF { index : list nat; columns : list (string * series) }.

Fixpoint assoc (name : string) (cols : list (string * series)) : option series :=
  match cols with
  | [] => None
  | (n, c) :: rest => if String.eqb n name then Some c else assoc name rest
  end.

(** [df[name]] *)
Definition getitem (df : DataFrame) (name : string) : result series :=
  match assoc name (columns df) with
  | Some c => Ok c
  | None => KeyError name
  end.

Fixpoint set_col (name : string) (v : series) (cols : list (string * series))
  : list (string * series) :=
  match cols with
  | [] => [(name, v)]
  | (n, c) :: rest =>
      if String.eqb n name then (n, v) :: rest else (n, c) :: set_col name v rest
  end.

(** [df[name] = v]: in place when the column exists, appended otherwise. *)
Definition setitem (df : DataFrame) (name : string) (v : series) : DataFrame :=
  mkDF (index df) (set_col name v (columns df)).

Fixpoint select (A : Type) (mask : list bool) (l : list A) : list A :=
  match mask, l with
  | b :: mask', x :: l' => if b then x :: select mask' l' else select mask' l'
  | _, _ => []
  end.

(** [df[mask]]: the rows where the mask holds, labels kept. *)
Definition rows_where (df : DataFrame) (mask : list bool) : DataFrame :=
  mkDF (select mask (index df))
       (map (fun nc => (fst nc, select mask (snd nc))) (columns df)).

(** [df.dropna(subset=[name], how='all')] *)
Definition dropna_subset (df : DataFrame) (name : string) : result DataFrame :=
  c <- getitem df name ;;
  Ok (rows_where df (map notna c)).

Definition has_column (df : DataFrame) (name : string) : bool :=
  match assoc name (columns df) with Some _ => true | None => false end.

(** [df[names]] for a list of names *)
Fixpoint project (df : DataFrame) (names : list string)
  : result (list (string * series)) :=
  match names with
  | [] => Ok []
  | n :: names' =>
      c <- getitem df n ;;
      rest <- project df names' ;;
      Ok ((n, c) :: rest)
  end.

Definition getitems (df : DataFrame) (names : list string) : result DataFrame :=
  cols <- project df names ;;
  Ok (mkDF (index df) cols).

(** [df.loc[k, name]]: the cell of column [name] in the row labelled [k]. *)
Fixpoint lookup (A : Type) (k : nat) (rows : list (nat * A)) : option A :=
  match rows with
  | [] => None
  | (k', v) :: rest => if Nat.eqb k' k then Some v else lookup k rest
  end.

Definition loc (df : DataFrame) (k : nat) (name : string) : option cell :=
  match assoc name (columns df) with
  | Some c => lookup k (combine (index df) c)
  | None => None
  end.

Definition nrows (df : DataFrame) : nat := length (index df).

(** ** The cleaning pipeline *)

(** The fixed output schema (lines 63-68). *)
Definition output_columns : list string :=
  ["CID"; "Shipment_Date"; "Customer_Name"; "Type"; "No.";
   "Order_No"; "Order_Date"; "Description"; "Quantity"; "OutstandingQuantity";
   "Quantity on Back Order"; "Unit Price Excl. VAT";
   "Line Discount Amount"; "Inv. Discount Amount Excl. VAT"; "OutstandingOrders"].

Section Pipeline.

(** [pd.to_datetime] on one string with [errors='coerce']: [None] when the
    text is no date. *)
Variable parse_date : string -> option date.

(** The columns handed to [to_datetime] hold strings and missing cells only
    ([to_datetime_strings_only]); the last clause makes the function total. *)
Definition to_datetime_cell (c : cell) : cell :=
  match c with
  | Str s => match parse_date s with Some d => Ts d | None => NaN end
  | Ts d => Ts d
  | NaN => NaN
  | Num _ => NaN
  end.

Definition to_datetime (s : series) : series := map to_datetime_cell s.

Definition clean_data (df : DataFrame) : result DataFrame :=
  let cleaned_df := df in
  (* 29 *)
  ty <- getitem cleaned_df "Type" ;;
  ty' <- getitem cleaned_df "Type" ;;
  let cleaned_df :=
    setitem cleaned_df "Customer_Name" (where_ ty (map (ne_str "Item") ty')) in
  (* 30 *)
  ty <- getitem cleaned_df "Type" ;;
  ty' <- getitem cleaned_df "Type" ;;
  let cleaned_df :=
    setitem cleaned_df "Type" (where_ ty (map (eq_str "Item") ty')) in
  (* 31 *)
  cn <- getitem cleaned_df "Customer_Name" ;;
  let cleaned_df := setitem cleaned_df "Customer_Name" (ffill cn) in
  (* 37 *)
  sd <- getitem cleaned_df "Shipment Date" ;;
  sd' <- getitem cleaned_df "Shipment Date" ;;
  let cleaned_df :=
    setitem cleaned_df "CID"
      (where_ sd (map negb (map (str_contains Re.date_pattern false) sd'))) in
  (* 38 *)
  sd <- getitem cleaned_df "Shipment Date" ;;
  sd' <- getitem cleaned_df "Shipment Date" ;;
  let cleaned_df :=
    setitem cleaned_df "Shipment_Date"
      (where_ sd (map (str_contains Re.date_pattern false) sd')) in
  (* 41 *)
  cid <- getitem cleaned_df "CID" ;;
  let cleaned_df := setitem cleaned_df "CID" (ffill cid) in
  (* 42 *)
  sdt <- getitem cleaned_df "Shipment_Date" ;;
  let cleaned_df :=
    setitem cleaned_df "Shipment_Date" (to_datetime (ffill sdt)) in
  (* 46 *)
  de <- getitem cleaned_df "Description" ;;
  let extracted := map (str_extract Re.order_pattern) de in
  let cleaned_df := setitem cleaned_df "Order_No" (map fst extracted) in
  let cleaned_df := setitem cleaned_df "Order_Date" (map snd extracted) in
  (* 47 *)
  ono <- getitem cleaned_df "Order_No" ;;
  let cleaned_df := setitem cleaned_df "Order_No" (ffill ono) in
  (* 48 *)
  od <- getitem cleaned_df "Order_Date" ;;
  let cleaned_df := setitem cleaned_df "Order_Date" (to_datetime (ffill od)) in
  (* 51 *)
  de <- getitem cleaned_df "Description" ;;
  let cleaned_df :=
    setitem cleaned_df "Description"
      (map str_strip (map (str_replace_empty Re.order_pattern) de)) in
  (* 54 *)
  no <- getitem cleaned_df "No." ;;
  let cleaned_df :=
    rows_where cleaned_df
      (map negb (map (str_contains Re.marker_pattern false) no)) in
  (* 57 *)
  no <- getitem cleaned_df "No." ;;
  let cleaned_df := setitem cleaned_df "No." (ffill no) in
  (* 60 *)
  final_df <- dropna_subset cleaned_df "Description" ;;
  (* 70 *)
  let available_columns := filter (has_column final_df) output_columns in
  (* 71 *)
  final_df <- getitems final_df available_columns ;;
  Ok final_df.

(** [main], lines 113-114: the Deli rows and the others. *)
Definition deli_mask (cleaned_df : DataFrame) : result (list bool) :=
  cn <- getitem cleaned_df "Customer_Name" ;;
  Ok (map (str_endswith "Deli" false) cn).

Definition spp_deli_df (cleaned_df : DataFrame) : result DataFrame :=
  m <- deli_mask cleaned_df ;;
  Ok (rows_where cleaned_df m).

Definition spp_foc_df (cleaned_df : DataFrame) : result DataFrame :=
  m <- deli_mask cleaned_df ;;
  Ok (rows_where cleaned_df (map negb m)).

End Pipeline.

(** ** A month-first reading of the two date shapes, for worked examples

    pandas reads [3/4/2024] as the 4th of March under its default
    [dayfirst=False]; this parser does the same for [M/D/YYYY] and
    [MM-DD-YY] and rejects every other text. *)

Definition digit_val (c : ascii) : nat := nat_of_ascii c - 48.

Definition number (t : Re.text) : nat :=
  fold_left (fun acc c => 10 * acc + digit_val c) t 0.

Fixpoint split_on (sep : ascii) (t : Re.text) : list Re.text :=
  match t with
  | [] => [[]]
  | c :: t' =>
      if Ascii.eqb c sep then [] :: split_on sep t'
      else match split_on sep t' with
           | w :: ws => (c :: w) :: ws
           | [] => [[c]]
           end
  end.

Definition is_number (lo hi : nat) (t : Re.text) : bool :=
  forallb Re.is_digit t && (lo <=? length t) && (length t <=? hi).

Definition leap (y : nat) : bool :=
  ((y mod 4 =? 0) && negb (y mod 100 =? 0)) || (y mod 400 =? 0).

Definition days_in (y m : nat) : nat :=
  match m with
  | 1 | 3 | 5 | 7 | 8 | 10 | 12 => 31
  | 4 | 6 | 9 | 11 => 30
  | 2 => if leap y then 29 else 28
  | _ => 0
  end.

Definition valid_date (y m d : nat) : option date :=
  if (1 <=? m) && (m <=? 12) && (1 <=? d) && (d <=? days_in y m)
  then Some (mkDate y m d) else None.

(** A two-digit year, as [%y] reads it: 69-99 in the 1900s, 00-68 in the
    2000s. *)
Definition century (yy : nat) : nat :=
  if yy <? 69 then 2000 + yy else 1900 + yy.

Definition month_first (s : string) : option date :=
  match split_on "/" (txt s) with
  | [m; d; y] =>
      if is_number 1 2 m && is_number 1 2 d && is_number 4 4 y
      then valid_date (number y) (number m) (number d) else None
  | _ =>
      match split_on "-" (txt s) with
      | [m; d; y] =>
          if is_number 2 2 m && is_number 2 2 d && is_number 2 2 y
          then valid_date (century (number y)) (number m) (number d) else None
      | _ => None
      end
  end.

(** ** The columns of the pipeline, in closed form *)

Definition customer_name_src (ty : series) : series :=
  where_ ty (map (ne_str "Item") ty).

Definition type_clean (ty : series) : series :=
  where_ ty (map (eq_str "Item") ty).

Definition is_date_text (sd : series) : list bool :=
  map (str_contains Re.date_pattern false) sd.

Definition cid_src (sd : series) : series := where_ sd (map negb (is_date_text sd)).

Definition shipment_src (sd : series) : series := where_ sd (is_date_text sd).

Definition order_no_src (de : series) : series :=
  map fst (map (str_extract Re.order_pattern) de).

Definition order_date_src (de : series) : series :=
  map snd (map (str_extract Re.order_pattern) de).

Definition description_clean (de : series) : series :=
  map str_strip (map (str_replace_empty Re.order_pattern) de).

(** Rows that are no marker rows (line 54). *)
Definition unmarked (no : series) : list bool :=
  map negb (map (str_contains Re.marker_pattern false) no).

(** ** Rows, survival and nearest values *)

(** A table as [pd.read_excel] returns it: rows labelled 0, 1, ... and every
    column as long as the table. *)
Definition well_formed (df : DataFrame) : Prop :=
  index df = seq 0 (nrows df) /\
  Forall (fun nc : string * series => length (snd nc) = nrows df) (columns df).

Fixpoint both (m1 m2 : list bool) : list bool :=
  match m1, m2 with
  | a :: m1', b :: m2' => (a && b) :: both m1' m2'
  | _, _ => []
  end.

(** Rows of the input that reach the output: no marker row, and a
    description that is not missing after the extraction. *)
Definition kept (no de : series) : list bool :=
  both (unmarked no) (map notna (description_clean de)).

(** The [No.] column with the cells of marker rows blanked: what the fill of
    line 57 sees, laid out on the rows of the input. *)
Definition no_src (no : series) : series := where_ no (unmarked no).

(** [v] is the nearest non-missing cell of [s] at or above row [i], or
    missing when there is none. *)
Definition nearest (s : series) (i : nat) (v : cell) : Prop :=
  (exists j, j <= i /\ nth_error s j = Some v /\ v <> NaN /\
             forall j', j < j' <= i -> nth_error s j' = Some NaN)
  \/ (v = NaN /\ forall j, j <= i -> nth_error s j = Some NaN).

(** The description of a row after the extraction (line 51). *)
Definition description_after (c : cell) : cell :=
  str_strip (str_replace_empty Re.order_pattern c).

(** Row [k] of the input is no marker row and its description is not missing
    after the extraction. *)
Definition survives (df : DataFrame) (k : nat) : Prop :=
  exists cn cd,
    loc df k "No." = Some cn /\ str_contains Re.marker_pattern false cn = false /\
    loc df k "Description" = Some cd /\ description_after cd <> NaN.

(** A cell that is a text or missing. *)
Definition text_or_missing (c : cell) : Prop :=
  match c with NaN | Str _ => True | _ => False end.


(** ** Worked tables *)

(** Two customers, each with an order header row and item rows. *)
Definition orders : DataFrame :=
  mkDF [0; 1; 2; 3; 4; 5; 6]
    [("Type", [Str "Acme Deli"; NaN; Str "Item"; Str "Item";
               Str "Global Deli Express"; NaN; Str "Item"]);
     ("Shipment Date", [Str "ID123"; Str "01-02-23"; NaN; NaN;
                        Str "ID456"; Str "03-04-23"; NaN]);
     ("Description", [NaN; Str "55555 6/7/2023"; Str "widget"; Str "gadget";
                      NaN; Str "66666 8/9/2023"; Str "bolt"]);
     ("No.", [NaN; Str "Order No."; Str "10000"; NaN;
              NaN; Str "Order No."; Str "20000"]);
     ("Quantity", [NaN; NaN; Num 5; Num 3; NaN; NaN; Num 7])].

Definition orders_cleaned : DataFrame :=
  mkDF [2; 3; 6]
    [("CID", [Str "ID123"; Str "ID123"; Str "ID456"]);
     ("Shipment_Date", [Ts (mkDate 2023 1 2); Ts (mkDate 2023 1 2);
                        Ts (mkDate 2023 3 4)]);
     ("Customer_Name", [Str "Acme Deli"; Str "Acme Deli";
                        Str "Global Deli Express"]);
     ("Type", [Str "Item"; Str "Item"; Str "Item"]);
     ("No.", [Str "10000"; Str "10000"; Str "20000"]);
     ("Order_No", [Str "55555"; Str "55555"; Str "66666"]);
     ("Order_Date", [Ts (mkDate 2023 6 7); Ts (mkDate 2023 6 7);
                     Ts (mkDate 2023 8 9)]);
     ("Description", [Str "widget"; Str "gadget"; Str "bolt"]);
     ("Quantity", [Num 5; Num 3; Num 7])].



Definition restock : DataFrame :=
  mkDF [0]
    [("Type", [Str "Item"]);
     ("Shipment Date", [Str "ID123"]);
     ("Description", [Str "12345 3/4/2024 widget restock"]);
     ("No.", [Str "10000"])].

Definition restock_cleaned : DataFrame :=
  mkDF [0]
    [("CID", [Str "ID123"]); ("Shipment_Date", [NaN]);
     ("Customer_Name", [NaN]); ("Type", [Str "Item"]);
     ("No.", [Str "10000"]); ("Order_No", [Str "12345"]);
     ("Order_Date", [Ts (mkDate 2024 3 4)]);
     ("Description", [Str "widget restock"])].

Definition near_markers : DataFrame :=
  mkDF [0; 1; 2]
    [("Type", [Str "Item"; Str "Item"; Str "Item"]);
     ("Shipment Date", [Str "ID123"; NaN; NaN]);
     ("Description", [Str "widget"; Str "gadget"; Str "bolt"]);
     ("No.", [Str "XOrder Now"; Str "Order Nos 5"; Str "10000"])].

Definition near_markers_cleaned : DataFrame :=
  mkDF [2]
    [("CID", [Str "ID123"]); ("Shipment_Date", [NaN]);
     ("Customer_Name", [NaN]); ("Type", [Str "Item"]);
     ("No.", [Str "10000"]); ("Order_No", [NaN]); ("Order_Date", [NaN]);
     ("Description", [Str "bolt"])].

Definition header_only : DataFrame :=
  mkDF [0; 1]
    [("Type", [Str "Acme Deli"; Str "Item"]);
     ("Shipment Date", [Str "ID123"; NaN]);
     ("Description", [Str "12345 3/4/2024"; Str "widget"]);
     ("No.", [NaN; Str "10000"])].

Definition header_only_cleaned : DataFrame :=
  mkDF [0; 1]
    [("CID", [Str "ID123"; Str "ID123"]); ("Shipment_Date", [NaN; NaN]);
     ("Customer_Name", [Str "Acme Deli"; Str "Acme Deli"]);
     ("Type", [NaN; Str "Item"]);
     ("No.", [NaN; Str "10000"]); ("Order_No", [Str "12345"; Str "12345"]);
     ("Order_Date", [Ts (mkDate 2024 3 4); Ts (mkDate 2024 3 4)]);
     ("Description", [Str ""; Str "widget"])].

Definition malformed : DataFrame :=
  mkDF [0; 1; 2]
    [("Type", [Str "Acme Deli"; Str "Item"; Str "Item"]);
     ("Shipment Date", [Str "99-99-99"; NaN; NaN]);
     ("Description", [Str "note"; Str "12345 31/31/2024 thing"; Str "widget"]);
     ("No.", [NaN; Str "10000"; NaN])].

Definition malformed_cleaned : DataFrame :=
  mkDF [0; 1; 2]
    [("CID", [NaN; NaN; NaN]); ("Shipment_Date", [NaN; NaN; NaN]);
     ("Customer_Name", [Str "Acme Deli"; Str "Acme Deli"; Str "Acme Deli"]);
     ("Type", [NaN; Str "Item"; Str "Item"]);
     ("No.", [NaN; Str "10000"; Str "10000"]);
     ("Order_No", [NaN; Str "12345"; Str "12345"]);
     ("Order_Date", [NaN; NaN; NaN]);
     ("Description", [Str "note"; Str "thing"; Str "widget"])].

Definition two_headers : DataFrame :=
  mkDF [0]
    [("Type", [Str "Item"]);
     ("Shipment Date", [Str "ID123"]);
     ("Description", [Str "12345 3/4/2024 and 67890 5/6/2025 x"]);
     ("No.", [Str "10000"])].

Definition two_headers_cleaned : DataFrame :=
  mkDF [0]
    [("CID", [Str "ID123"]); ("Shipment_Date", [NaN]);
     ("Customer_Name", [NaN]); ("Type", [Str "Item"]);
     ("No.", [Str "10000"]); ("Order_No", [Str "12345"]);
     ("Order_Date", [Ts (mkDate 2024 3 4)]);
     ("Description", [Str "and  x"])].

Definition two_headers_first : Re.found :=
  Re.mkFound []
    [txt "12345 3/4/2024 and 67890 5/6/2025 x";
     txt " 3/4/2024 and 67890 5/6/2025 x";
     txt "3/4/2024 and 67890 5/6/2025 x";
     txt " and 67890 5/6/2025 x"]
    (txt " and 67890 5/6/2025 x").

(** ** The table before the projection, and the column lists *)



(** The columns [clean_data] adds to the table. *)
Definition derived_columns : list string :=
  ["CID"; "Shipment_Date"; "Customer_Name"; "Order_No"; "Order_Date"].

(** The columns of the output schema that [clean_data] neither reads nor
    writes. *)
Definition passthrough_columns : list string :=
  ["Quantity"; "OutstandingQuantity"; "Quantity on Back Order";
   "Unit Price Excl. VAT"; "Line Discount Amount";
   "Inv. Discount Amount Excl. VAT"; "OutstandingOrders"].

Definition column_names (df : DataFrame) : list string := map fst (columns df).

(** [final_df] of line 60, with every column read resolved: the assignments
    of lines 29-51, the marker filter, the fill of [No.] and [dropna]. *)
Definition before_projection (parse_date : string -> option date)
  (df : DataFrame) (ty sd de no : series) : DataFrame :=
  let d := setitem df "Customer_Name" (customer_name_src ty) in
  let d := setitem d "Type" (type_clean ty) in
  let d := setitem d "Customer_Name" (ffill (customer_name_src ty)) in
  let d := setitem d "CID" (cid_src sd) in
  let d := setitem d "Shipment_Date" (shipment_src sd) in
  let d := setitem d "CID" (ffill (cid_src sd)) in
  let d := setitem d "Shipment_Date"
             (to_datetime parse_date (ffill (shipment_src sd))) in
  let d := setitem d "Order_No" (order_no_src de) in
  let d := setitem d "Order_Date" (order_date_src de) in
  let d := setitem d "Order_No" (ffill (order_no_src de)) in
  let d := setitem d "Order_Date"
             (to_datetime parse_date (ffill (order_date_src de))) in
  let d := setitem d "Description" (description_clean de) in
  let d := rows_where d (unmarked no) in
  let d := setitem d "No." (ffill (select (unmarked no) no)) in
  rows_where d (map notna (select (unmarked no) (description_clean de))).

(** A table with no 'Description' column and one with an extra column. *)
Definition no_description : DataFrame :=
  mkDF [0]
    [("Type", [Str "Item"]); ("Shipment Date", [Str "ID123"]);
     ("No.", [Str "10000"])].

(** A cell of a date column: a timestamp or missing, never a text. *)
Definition timestamp_or_missing (c : cell) : Prop :=
  match c with NaN | Ts _ => True | _ => False end.

(** A text of digits only, at least [n] of them. *)
Definition digits_at_least (n : nat) (s : string) : Prop :=
  forallb Re.is_digit (txt s) = true /\ n <= length (txt s).

(** A text with no white space at either end. *)
Definition trimmed (t : Re.text) : Prop :=
  match t with [] => True | c :: _ => Re.is_space c = false end /\
  match rev t with [] => True | c :: _ => Re.is_space c = false end.

(** ** File names and download links ([main], lines 117-119, and
       [get_download_link], lines 75-83) *)

(** [datetime.now()], to the second: the format of line 117 prints nothing
    finer. *)
Record datetime := mkDatetime {
  dt_year : N; dt_month : N; dt_day : N;
  dt_hour : N; dt_minute : N; dt_second : N }.

Definition valid_datetime (t : datetime) : Prop :=
  (1000 <= dt_year t <= 9999 /\ 1 <= dt_month t <= 12 /\
   1 <= dt_day t <= 31 /\
   dt_hour t < 24 /\ dt_minute t < 60 /\ dt_second t < 60)%N.

Definition digit_char (n : N) : ascii := ascii_of_N (48 + n mod 10)%N.

(** A field printed on two digits ([%m], [%d], [%H], [%M], [%S]) and on four
    ([%Y]). *)
Definition pad2 (n : N) : Re.text := [digit_char (n / 10)%N; digit_char n].

Definition pad4 (n : N) : Re.text :=
  [digit_char (n / 1000)%N; digit_char (n / 100)%N; digit_char (n / 10)%N;
   digit_char n].

(** [strftime("%Y%m%d_%H%M%S")] *)
Definition strftime_stamp (t : datetime) : string :=
  untxt (pad4 (dt_year t) ++ pad2 (dt_month t) ++ pad2 (dt_day t)
         ++ "_"%char :: pad2 (dt_hour t) ++ pad2 (dt_minute t)
         ++ pad2 (dt_second t)).

(** f"SPP_Deli_{timestamp}.xlsx" and f"SPP_FOC_{timestamp}.xlsx" *)
Definition deli_filename (t : datetime) : string :=
  ("SPP_Deli_" ++ strftime_stamp t ++ ".xlsx")%string.

Definition foc_filename (t : datetime) : string :=
  ("SPP_FOC_" ++ strftime_stamp t ++ ".xlsx")%string.

(** The double quote. *)
Definition quote : ascii := ascii_of_nat 34.

Definition dquote : string := String quote EmptyString.

Section DownloadLink.

(** [df.to_excel(writer, index=False)] into a byte buffer and
    [base64.b64encode(...).decode()] belong to openpyxl and to the Python
    library: both are parameters. *)
Variable to_excel : DataFrame -> list ascii.
Variable b64encode : list ascii -> string.

Definition link_payload (df : DataFrame) : string :=
  ("data:application/vnd.openxmlformats-officedocument.spreadsheetml.sheet;base64,"
   ++ b64encode (to_excel df))%string.

Definition get_download_link (df : DataFrame) (filename : string) : string :=
  ("<a href=" ++ dquote ++ link_payload df ++ dquote
   ++ " download=" ++ dquote ++ filename ++ dquote
   ++ ">Download " ++ filename ++ "</a>")%string.

End DownloadLink.

(** Base64 with the standard alphabet and padding, for worked examples. *)
Definition b64_alphabet : Re.text :=
  txt "ABCDEFGHIJKLMNOPQRSTUVWXYZabcdefghijklmnopqrstuvwxyz0123456789+/".

Definition b64_char (i : N) : ascii :=
  nth (N.to_nat (i mod 64)%N) b64_alphabet "A"%char.

Fixpoint base64 (bs : list ascii) : Re.text :=
  match bs with
  | [] => []
  | [a] =>
      let n := (N_of_ascii a * 65536)%N in
      [b64_char (n / 262144); b64_char (n / 4096); "="%char; "="%char]
  | [a; b] =>
      let n := (N_of_ascii a * 65536 + N_of_ascii b * 256)%N in
      [b64_char (n / 262144); b64_char (n / 4096); b64_char (n / 64); "="%char]
  | a :: b :: c :: rest =>
      let n := (N_of_ascii a * 65536 + N_of_ascii b * 256 + N_of_ascii c)%N in
      b64_char (n / 262144) :: b64_char (n / 4096) :: b64_char (n / 64)
      :: b64_char n :: base64 rest
  end.

Definition b64encode_text (bs : list ascii) : string := untxt (base64 bs).

(** A workbook stands for its bytes; any bytes do for the examples. *)
Definition workbook_stub (df : DataFrame) : list ascii := txt "PK".

Definition new_year_noon : datetime := mkDatetime 2025 1 1 12 0 0.

(** A text without a double quote. *)
Definition quote_free (t : Re.text) : Prop := ~ In quote t.

(** A text that holds "Order No" followed by a character other than a line
    feed: what the marker test of line 54 looks for. *)
Definition marker_text (v : string) : Prop :=
  exists pre c post,
    txt v = pre ++ txt "Order No" ++ c :: post /\ Re.is_dot c = true.

(** ** Lemmas on columns and row masks *)

Lemma assoc_set_col_same name v cols : assoc name (set_col name v cols) = Some v.
Proof.
  induction cols as [|[n c] rest IH]; simpl.
  - now rewrite String.eqb_refl.
  - destruct (String.eqb n name) eqn:E; simpl; rewrite E; auto.
Qed.

Lemma assoc_set_col_other name other v cols :
  String.eqb name other = false ->
  assoc other (set_col name v cols) = assoc other cols.
Proof.
  intros Hne. induction cols as [|[n c] rest IH]; simpl.
  - now rewrite Hne.
  - destruct (String.eqb n name) eqn:E; simpl.
    + apply String.eqb_eq in E. subst n. now rewrite Hne.
    + destruct (String.eqb n other); auto.
Qed.

Lemma assoc_rows_where name mask cols :
  assoc name (map (fun nc : string * series => (fst nc, select mask (snd nc))) cols)
  = option_map (select mask) (assoc name cols).
Proof.
  induction cols as [|[n c] rest IH]; simpl; auto.
  destruct (String.eqb n name); auto.
Qed.

Lemma getitem_setitem_same df name v : getitem (setitem df name v) name = Ok v.
Proof. unfold getitem, setitem; simpl. now rewrite assoc_set_col_same. Qed.

Lemma getitem_setitem_other df name other v :
  String.eqb name other = false ->
  getitem (setitem df name v) other = getitem df other.
Proof.
  intros H. unfold getitem, setitem; simpl. now rewrite assoc_set_col_other.
Qed.

Lemma getitem_rows_where df mask name :
  getitem (rows_where df mask) name =
  match getitem df name with
  | Ok c => Ok (select mask c)
  | KeyError e => KeyError e
  end.
Proof.
  unfold getitem, rows_where; simpl. rewrite assoc_rows_where.
  destruct (assoc name (columns df)); reflexivity.
Qed.

Lemma getitem_assoc df name c :
  assoc name (columns df) = Some c -> getitem df name = Ok c.
Proof. unfold getitem. now intros ->. Qed.

(** Projection on the columns that exist never fails, keeps the rows, and
    keeps each listed column as it was. *)
Lemma project_available df names :
  exists cols,
    project df (filter (has_column df) names) = Ok cols /\
    forall n, assoc n cols =
              if existsb (String.eqb n) names then assoc n (columns df) else None.
Proof.
  induction names as [|a names IH]; simpl.
  - exists []. split; auto.
  - destruct IH as [cols [Hp Hc]].
    unfold has_column at 1. destruct (assoc a (columns df)) as [c|] eqn:Ea.
    + exists ((a, c) :: cols). split.
      * simpl. unfold getitem. rewrite Ea. simpl. rewrite Hp. reflexivity.
      * intros n. simpl. rewrite Hc.
        destruct (String.eqb a n) eqn:E.
        -- apply String.eqb_eq in E. subst a. rewrite String.eqb_refl. simpl.
           now rewrite Ea.
        -- rewrite String.eqb_sym, E. reflexivity.
    + exists cols. split; auto.
      intros n. rewrite Hc.
      destruct (String.eqb n a) eqn:E; simpl; auto.
      apply String.eqb_eq in E. subst a. rewrite Ea.
      now destruct (existsb (String.eqb n) names).
Qed.

Lemma getitems_available df names :
  exists cols,
    getitems df (filter (has_column df) names) = Ok (mkDF (index df) cols) /\
    forall n, assoc n cols =
              if existsb (String.eqb n) names then assoc n (columns df) else None.
Proof.
  destruct (project_available df names) as [cols [Hp Hc]].
  exists cols. split; auto. unfold getitems. now rewrite Hp.
Qed.

(** The table before the final projection, and the pipeline in closed form:
    with the four columns it reads, [clean_data] returns a table, whatever the
    date parser. *)
Section ClosedForm.

Variable parse_date : string -> option date.
Variables (df : DataFrame) (ty sd de no : series).
Hypothesis Hty : assoc "Type" (columns df) = Some ty.
Hypothesis Hsd : assoc "Shipment Date" (columns df) = Some sd.
Hypothesis Hde : assoc "Description" (columns df) = Some de.
Hypothesis Hno : assoc "No." (columns df) = Some no.

Let keep1 := unmarked no.
Let keep2 := map notna (select keep1 (description_clean de)).
Let pick (s : series) : series := select keep2 (select keep1 s).

Lemma clean_data_closed_form :
  exists cols,
    clean_data parse_date df = Ok (mkDF (select keep2 (select keep1 (index df))) cols)
    /\ assoc "Customer_Name" cols = Some (pick (ffill (customer_name_src ty)))
    /\ assoc "Type" cols = Some (pick (type_clean ty))
    /\ assoc "CID" cols = Some (pick (ffill (cid_src sd)))
    /\ assoc "Shipment_Date" cols
       = Some (pick (to_datetime parse_date (ffill (shipment_src sd))))
    /\ assoc "Order_No" cols = Some (pick (ffill (order_no_src de)))
    /\ assoc "Order_Date" cols
       = Some (pick (to_datetime parse_date (ffill (order_date_src de))))
    /\ assoc "Description" cols = Some (pick (description_clean de))
    /\ assoc "No." cols = Some (select keep2 (ffill (select keep1 no)))
    /\ assoc "Shipment Date" cols = None.
Proof.
  unfold clean_data.
  repeat (first
    [ rewrite getitem_setitem_same
    | rewrite getitem_setitem_other by reflexivity
    | rewrite (getitem_assoc df _ Hty)
    | rewrite (getitem_assoc df _ Hsd)
    | rewrite (getitem_assoc df _ Hde)
    | rewrite (getitem_assoc df _ Hno)
    | rewrite getitem_rows_where
    | progress cbn [bind] ]).
  unfold dropna_subset.
  rewrite getitem_setitem_other by reflexivity.
  rewrite getitem_rows_where, getitem_setitem_same.
  cbn [bind].
  match goal with
  | |- context [getitems ?f (filter (has_column ?f) output_columns)] =>
      destruct (getitems_available f output_columns) as [cols [Hg Hc]]
  end.
  exists cols. rewrite Hg. cbn [bind].
  split; [reflexivity|].
  repeat split; rewrite Hc;
    match goal with
    | |- context [existsb ?f output_columns] =>
        let b := eval vm_compute in (existsb f output_columns) in
        change (existsb f output_columns) with b
    end; cbv iota; try reflexivity;
    unfold rows_where, setitem; cbn [columns];
    repeat (first
      [ rewrite assoc_rows_where
      | rewrite assoc_set_col_same
      | rewrite assoc_set_col_other by reflexivity ]);
    reflexivity.
Qed.

End ClosedForm.

(** ** Rows by position *)

Lemma well_formed_length df name c :
  well_formed df -> assoc name (columns df) = Some c -> length c = nrows df.
Proof.
  intros [_ Hall]. induction (columns df) as [|[n c'] rest IH]; simpl; [discriminate|].
  inversion Hall; subst.
  destruct (String.eqb n name); auto.
  intros E; inversion E; subst; auto.
Qed.

Lemma where_length s m : length m = length s -> length (where_ s m) = length s.
Proof.
  revert m. induction s as [|c s IH]; intros [|b m]; simpl; intros E;
    try discriminate; auto.
Qed.

Lemma ffill_from_length a s : length (ffill_from a s) = length s.
Proof. revert a. induction s; intros; simpl; auto. Qed.

Lemma ffill_length s : length (ffill s) = length s.
Proof. apply ffill_from_length. Qed.

Lemma both_length m1 m2 : length m1 = length m2 -> length (both m1 m2) = length m1.
Proof.
  revert m2. induction m1; intros [|b m2]; simpl; intros E;
    try discriminate; auto.
Qed.

Lemma nth_error_where s m i :
  length m = length s ->
  nth_error (where_ s m) i =
  match nth_error m i, nth_error s i with
  | Some true, Some c => Some c
  | Some false, Some _ => Some NaN
  | _, _ => None
  end.
Proof.
  revert m i. induction s as [|c s IH]; intros [|b m] [|i] E; simpl in *;
    try discriminate; auto.
  now destruct b.
Qed.

Lemma nth_error_both m1 m2 i :
  length m1 = length m2 ->
  nth_error (both m1 m2) i =
  match nth_error m1 i, nth_error m2 i with
  | Some a, Some b => Some (a && b)
  | _, _ => None
  end.
Proof.
  revert m2 i. induction m1 as [|a m1 IH]; intros [|b m2] [|i] E; simpl in *;
    try discriminate; auto.
Qed.

(** Two masks applied in turn are one mask on the original rows. *)
Lemma select_select (A B : Type) (f : B -> bool) m (d : list B) (l : list A) :
  select (map f (select m d)) (select m l) = select (both m (map f d)) l.
Proof.
  revert d l. induction m as [|b m IH]; intros d l; [reflexivity|].
  destruct d as [|x d], l as [|y l], b; simpl; auto.
  - now destruct (map f (select m d)).
  - destruct (f x); simpl; now rewrite IH.
Qed.

(** Dropping rows and then filling is filling with the dropped cells blanked
    and then dropping the rows. *)
Lemma ffill_from_select a m s :
  ffill_from a (select m s) = select m (ffill_from a (where_ s m)).
Proof.
  revert a m. induction s as [|c s IH]; intros a [|b m]; simpl; auto.
  destruct b; simpl; now rewrite IH.
Qed.

Lemma lookup_combine_select (A : Type) m (l : list A) s k :
  length m = length l ->
  lookup k (combine (select m (seq s (length l))) (select m l)) =
  if s <=? k then
    match nth_error m (k - s) with
    | Some true => nth_error l (k - s)
    | _ => None
    end
  else None.
Proof.
  revert m s. induction l as [|x l IH]; intros [|b m] s; simpl; try discriminate.
  - intros _. destruct (s <=? k); auto. now destruct (k - s).
  - intros E. injection E as E.
    assert (IH' := IH m (S s) E).
    destruct b; simpl.
    + destruct (Nat.eqb s k) eqn:Ek.
      * apply Nat.eqb_eq in Ek. subst k.
        rewrite Nat.leb_refl, Nat.sub_diag. reflexivity.
      * apply Nat.eqb_neq in Ek. rewrite IH'.
        destruct (s <=? k) eqn:Es.
        -- apply Nat.leb_le in Es.
           assert (Hs : (S s <=? k) = true) by (apply Nat.leb_le; lia).
           rewrite Hs. replace (k - s) with (S (k - S s)) by lia. reflexivity.
        -- apply Nat.leb_gt in Es.
           assert (Hs : (S s <=? k) = false) by (apply Nat.leb_gt; lia).
           now rewrite Hs.
    + rewrite IH'.
      destruct (s <=? k) eqn:Es.
      * apply Nat.leb_le in Es.
        destruct (Nat.eq_dec s k) as [->|Hne].
        -- assert (Hs : (S k <=? k) = false) by (apply Nat.leb_gt; lia).
           rewrite Hs, Nat.sub_diag. reflexivity.
        -- assert (Hs : (S s <=? k) = true) by (apply Nat.leb_le; lia).
           rewrite Hs. replace (k - s) with (S (k - S s)) by lia. reflexivity.
      * apply Nat.leb_gt in Es.
        assert (Hs : (S s <=? k) = false) by (apply Nat.leb_gt; lia).
        now rewrite Hs.
Qed.

Lemma In_select_seq m s n k :
  length m = n ->
  In k (select m (seq s n)) <-> s <= k /\ nth_error m (k - s) = Some true.
Proof.
  revert m s. induction n as [|n IH]; intros [|b m] s; simpl; try discriminate.
  - intros _. split; [tauto|]. intros [_ H]. now destruct (k - s).
  - intros E. injection E as E. specialize (IH m (S s) E).
    destruct b; simpl; rewrite ?IH; split.
    + intros [->|[Hle Hn]].
      * split; [lia|]. now rewrite Nat.sub_diag.
      * split; [lia|]. replace (k - s) with (S (k - S s)) by lia. exact Hn.
    + intros [Hle Hn]. destruct (Nat.eq_dec s k) as [->|Hne]; [now left|right].
      split; [lia|]. replace (k - s) with (S (k - S s)) in Hn by lia. exact Hn.
    + intros [Hle Hn]. split; [lia|].
      replace (k - s) with (S (k - S s)) by lia. exact Hn.
    + intros [Hle Hn]. destruct (Nat.eq_dec s k) as [->|Hne].
      * rewrite Nat.sub_diag in Hn. discriminate.
      * split; [lia|]. replace (k - s) with (S (k - S s)) in Hn by lia. exact Hn.
Qed.

(** [ffill] gives every row the nearest value at or above it. *)
Lemma ffill_from_nearest a s i v :
  nth_error (ffill_from a s) i = Some v ->
  (exists j, j <= i /\ nth_error s j = Some v /\ v <> NaN /\
             forall j', j < j' <= i -> nth_error s j' = Some NaN)
  \/ (v = a /\ forall j, j <= i -> nth_error s j = Some NaN).
Proof.
  revert a i. induction s as [|c s IH]; intros a i; simpl.
  - destruct i; discriminate.
  - destruct i as [|i]; simpl.
    + intros E. injection E as E. destruct c; simpl in E; subst v;
        try (left; exists 0; repeat split; auto; try discriminate;
             intros j' Hj'; lia).
      right. split; auto. intros j Hj. replace j with 0 by lia. reflexivity.
    + intros E. apply IH in E. destruct E as [[j [Hj [Hn [Hv Hg]]]]|[Hv Hg]].
      * left. exists (S j). repeat split; auto; try lia.
        intros j' Hj'. destruct j' as [|j']; [lia|]. simpl. apply Hg. lia.
      * destruct c; simpl in Hv;
          try (left; exists 0; subst v; repeat split; auto; try lia;
               try discriminate;
               intros j' Hj'; destruct j' as [|j']; [lia|]; simpl; apply Hg; lia).
        right. split; auto. intros j Hj. destruct j as [|j]; simpl; auto.
        apply Hg. lia.
Qed.

Lemma ffill_nearest s i v : nth_error (ffill s) i = Some v -> nearest s i v.
Proof. intros H. apply ffill_from_nearest in H. exact H. Qed.

(** [nearest] names one value. *)
Lemma nearest_unique s i v w : nearest s i v -> nearest s i w -> v = w.
Proof.
  intros [[j [Hj [Hn [Hv Hg]]]]|[Hv Hg]] [[j' [Hj' [Hn' [Hv' Hg']]]]|[Hv' Hg']].
  - destruct (Nat.lt_trichotomy j j') as [L|[E|L]].
    + rewrite (Hg j') in Hn' by lia. injection Hn' as <-. contradiction.
    + subst j'. congruence.
    + rewrite (Hg' j) in Hn by lia. injection Hn as <-. contradiction.
  - rewrite (Hg' j) in Hn by lia. injection Hn as <-. contradiction.
  - rewrite (Hg j') in Hn' by lia. injection Hn' as <-. contradiction.
  - congruence.
Qed.

(** Which rows of a well-formed table reach the output, and what each of
    them holds, by row label. *)
Section Rows.

Variable parse_date : string -> option date.
Variables (df : DataFrame) (ty sd de no : series).
Hypothesis Hwf : well_formed df.
Hypothesis Hty : assoc "Type" (columns df) = Some ty.
Hypothesis Hsd : assoc "Shipment Date" (columns df) = Some sd.
Hypothesis Hde : assoc "Description" (columns df) = Some de.
Hypothesis Hno : assoc "No." (columns df) = Some no.

Lemma kept_length : length (kept no de) = nrows df.
Proof.
  pose proof (well_formed_length _ Hwf Hde) as Ld.
  pose proof (well_formed_length _ Hwf Hno) as Ln.
  unfold kept, unmarked, description_clean.
  rewrite both_length; rewrite ?length_map; lia.
Qed.

Lemma loc_selected k name cols full :
  assoc name cols = Some (select (kept no de) full) ->
  length full = nrows df ->
  nth_error (kept no de) k = Some true ->
  loc (mkDF (select (kept no de) (index df)) cols) k name = nth_error full k.
Proof.
  intros Ha Hl Hk. unfold loc; simpl. rewrite Ha.
  destruct Hwf as [Hi _]. rewrite Hi, <- Hl.
  rewrite lookup_combine_select by (rewrite kept_length; lia).
  simpl. rewrite Nat.sub_0_r, Hk. reflexivity.
Qed.

Lemma clean_data_rows :
  exists out,
    clean_data parse_date df = Ok out /\
    (forall k, In k (index out) <-> nth_error (kept no de) k = Some true) /\
    forall k, In k (index out) ->
      loc out k "Customer_Name" = nth_error (ffill (customer_name_src ty)) k /\
      loc out k "Type" = nth_error (type_clean ty) k /\
      loc out k "CID" = nth_error (ffill (cid_src sd)) k /\
      loc out k "Shipment_Date"
      = nth_error (to_datetime parse_date (ffill (shipment_src sd))) k /\
      loc out k "Order_No" = nth_error (ffill (order_no_src de)) k /\
      loc out k "Order_Date"
      = nth_error (to_datetime parse_date (ffill (order_date_src de))) k /\
      loc out k "Description" = nth_error (description_clean de) k /\
      loc out k "No." = nth_error (ffill (no_src no)) k.
Proof.
  pose proof (well_formed_length _ Hwf Hty) as Lt.
  pose proof (well_formed_length _ Hwf Hsd) as Ls.
  pose proof (well_formed_length _ Hwf Hde) as Ld.
  pose proof (well_formed_length _ Hwf Hno) as Ln.
  destruct (clean_data_closed_form parse_date df Hty Hsd Hde Hno)
    as [cols [Hrun [Hcn [Htp [Hcid [Hsh [Hon [Hod [Hds [Hn _]]]]]]]]]].
  unfold ffill in Hn. rewrite ffill_from_select in Hn.
  rewrite !select_select in *.
  fold (kept no de) in *. fold (no_src no) in Hn. fold (ffill (no_src no)) in Hn.
  eexists. split; [exact Hrun|].
  assert (Hin : forall k, In k (select (kept no de) (index df)) <->
                          nth_error (kept no de) k = Some true).
  { intros k. destruct Hwf as [Hi _]. rewrite Hi.
    rewrite In_select_seq by apply kept_length.
    rewrite Nat.sub_0_r. split; [tauto|]. split; [lia|assumption]. }
  split; [exact Hin|].
  intros k Hk. simpl in Hk. apply Hin in Hk.
  repeat split;
    (apply loc_selected; [assumption| |assumption]);
    unfold to_datetime, customer_name_src, type_clean, cid_src, shipment_src,
      order_no_src, order_date_src, description_clean, no_src, is_date_text,
      unmarked;
    rewrite ?length_map, ?ffill_length, ?length_map;
    rewrite ?where_length; rewrite ?length_map; auto.
Qed.

End Rows.

(** ** The matcher at work *)

Lemma order_pattern_examples :
  extract_text Re.order_pattern "12345 3/4/2024 widget restock"
  = Some ("12345", "3/4/2024") /\
  extract_text Re.order_pattern "ref 1234567   13/4/20245 late"
  = Some ("1234567", "13/4/2024") /\
  extract_text Re.order_pattern "1234 3/4/2024" = None /\
  extract_text Re.order_pattern "12345 3/4/24" = None /\
  extract_text Re.order_pattern "12345-3/4/2024" = None /\
  description_after (Str "  12345 3/4/2024   widget restock ")
  = Str "widget restock".
Proof. repeat split; vm_compute; reflexivity. Qed.

Lemma date_pattern_examples :
  str_contains Re.date_pattern false (Str "01-02-23") = true /\
  str_contains Re.date_pattern false (Str "AB12-34-56CD") = true /\
  str_contains Re.date_pattern false (Str "2023-01-02") = true /\
  str_contains Re.date_pattern false (Str "1-02-23") = false /\
  str_contains Re.date_pattern false (Str "ID123") = false /\
  str_contains Re.date_pattern false NaN = false /\
  str_contains Re.date_pattern false (Ts (mkDate 2023 1 2)) = false.
Proof. repeat split; vm_compute; reflexivity. Qed.

Lemma marker_pattern_examples :
  str_contains Re.marker_pattern false (Str "Order No.") = true /\
  str_contains Re.marker_pattern false (Str "Order No") = false /\
  str_contains Re.marker_pattern false (Str "order no.") = false /\
  str_contains Re.marker_pattern false (Str "10000") = false /\
  str_contains Re.marker_pattern false (Num 10000) = false.
Proof. repeat split; vm_compute; reflexivity. Qed.

(** ** Lemmas on the matcher *)

Module ReFacts.
Import Re.

Lemma backtrack_eq (A : Type) (k : text -> option A) s lo n :
  backtrack k s lo n =
  if n <? lo then None
  else match k (skipn n s) with
       | Some r => Some r
       | None => match n with 0 => None | S n' => backtrack k s lo n' end
       end.
Proof. destruct n; reflexivity. Qed.

Lemma backtrack_some (A : Type) (k : text -> option A) s lo n x :
  backtrack k s lo n = Some x ->
  exists m, lo <= m <= n /\ k (skipn m s) = Some x.
Proof.
  induction n as [|n IH]; rewrite backtrack_eq;
    (destruct (_ <? lo) eqn:E; [discriminate|]); apply Nat.ltb_ge in E;
    match goal with |- context [k ?t] => destruct (k t) eqn:Ek end.
  - intros H. injection H as ->. exists 0. split; [lia|exact Ek].
  - discriminate.
  - intros H. injection H as ->. exists (S n). split; [lia|exact Ek].
  - intros H. apply IH in H. destruct H as [m [Hm Hk]].
    exists m. split; [lia|exact Hk].
Qed.

Lemma count_prefix_le p s : count_prefix p s <= length s.
Proof. induction s as [|c s IH]; simpl; [lia|]. destruct (p c); simpl; lia. Qed.

Lemma greedy_max_le p hi s : greedy_max p hi s <= count_prefix p s.
Proof. destruct hi; simpl; lia. Qed.

(** The first [n] characters, when [n] is within the run of [p]. *)
Lemma count_prefix_firstn p s n :
  n <= count_prefix p s -> forallb p (firstn n s) = true.
Proof.
  revert n. induction s as [|c s IH]; intros [|n]; simpl; auto; try lia.
  destruct (p c) eqn:E; simpl; [|lia]. intros H. apply IH. lia.
Qed.

(** A match takes a prefix of the text, at least as long as the pattern's
    minimum, and leaves one mark for each parenthesis. *)
Lemma match_here_consumes r s ms rest :
  match_here r s = Some (ms, rest) ->
  exists pre, s = pre ++ rest /\ min_len r <= length pre /\
              length ms = mark_count r.
Proof.
  revert s ms rest. induction r as [|a r IH]; intros s ms rest.
  - simpl. intros H. injection H as <- <-. exists []. auto.
  - destruct a as [p lo hi| |]; simpl.
    + intros H. apply backtrack_some in H. destruct H as [m [Hm Hk]].
      apply IH in Hk. destruct Hk as [pre [Hs [Hl Hc]]].
      exists (firstn m s ++ pre). rewrite <- app_assoc, <- Hs, firstn_skipn.
      split; [reflexivity|]. split; [|exact Hc].
      rewrite length_app, length_firstn.
      pose proof (greedy_max_le p hi s). pose proof (count_prefix_le p s). lia.
    + destruct (match_here r s) as [[ms' rest']|] eqn:E; [|discriminate].
      intros H. injection H as <- <-.
      apply IH in E. destruct E as [pre [Hs [Hl Hc]]].
      exists pre. simpl. auto.
    + destruct (match_here r s) as [[ms' rest']|] eqn:E; [|discriminate].
      intros H. injection H as <- <-.
      apply IH in E. destruct E as [pre [Hs [Hl Hc]]].
      exists pre. simpl. auto.
Qed.

(** What [search] finds is a match at the end of [before], and no match
    starts earlier. *)
Lemma search_sound r s f :
  search r s = Some f ->
  exists suf, s = before f ++ suf /\ match_here r suf = Some (marks f, after f).
Proof.
  revert f. induction s as [|c s IH]; intros f; simpl.
  - destruct (match_here r []) as [[ms rest]|] eqn:E; [|discriminate].
    intros H. injection H as <-. exists []. auto.
  - destruct (match_here r (c :: s)) as [[ms rest]|] eqn:E.
    + intros H. injection H as <-. exists (c :: s). auto.
    + destruct (search r s) as [f'|] eqn:Es; [|discriminate].
      intros H. injection H as <-. simpl.
      destruct (IH f' eq_refl) as [suf [Hs Hm]].
      exists suf. split; [now rewrite Hs at 1|exact Hm].
Qed.

Lemma search_leftmost r s f :
  search r s = Some f ->
  forall pre suf, s = pre ++ suf -> length pre < length (before f) ->
                  match_here r suf = None.
Proof.
  revert f. induction s as [|c s IH]; intros f; simpl.
  - destruct (match_here r []) as [[ms rest]|] eqn:E; [|discriminate].
    intros H. injection H as <-. simpl. intros; lia.
  - destruct (match_here r (c :: s)) as [[ms rest]|] eqn:E.
    + intros H. injection H as <-. simpl. intros; lia.
    + destruct (search r s) as [f'|] eqn:Es; [|discriminate].
      intros H. injection H as <-. simpl.
      intros [|c' pre] suf Hs Hl; simpl in *.
      * now subst suf.
      * injection Hs as -> ->. apply (IH f' eq_refl pre); [reflexivity|lia].
Qed.

Lemma search_none r s :
  search r s = None ->
  forall pre suf, s = pre ++ suf -> match_here r suf = None.
Proof.
  induction s as [|c s IH]; simpl.
  - destruct (match_here r []) as [[ms rest]|] eqn:E; [discriminate|].
    intros _ pre suf H. symmetry in H. apply app_eq_nil in H.
    destruct H as [_ ->]. exact E.
  - destruct (match_here r (c :: s)) as [[ms rest]|] eqn:E; [discriminate|].
    destruct (search r s) as [f'|] eqn:Es; [discriminate|].
    intros _ [|c' pre] suf Hs; simpl in *.
    + now subst suf.
    + injection Hs as -> ->. now apply (IH eq_refl pre).
Qed.

Lemma contains_complete r pre suf x :
  match_here r suf = Some x -> contains r (pre ++ suf) = true.
Proof.
  intros H. unfold contains.
  destruct (search r (pre ++ suf)) eqn:E; [reflexivity|].
  rewrite (search_none _ E pre suf eq_refl) in H. discriminate.
Qed.

Lemma contains_sound r s :
  contains r s = true ->
  exists pre suf x, s = pre ++ suf /\ match_here r suf = Some x.
Proof.
  unfold contains. destruct (search r s) as [f|] eqn:E; [|discriminate].
  intros _. destruct (search_sound _ _ E) as [suf [Hs Hm]].
  exists (before f), suf, (marks f, after f). auto.
Qed.

(** The text after a found match is shorter than the text searched, when
    the pattern cannot match the empty text. *)
Lemma search_after_shorter r s f :
  0 < min_len r -> search r s = Some f -> length (after f) < length s.
Proof.
  intros Hpos H. destruct (search_sound _ _ H) as [suf [Hs Hm]].
  apply match_here_consumes in Hm. destruct Hm as [pre [Hp [Hl _]]].
  subst s suf. rewrite !length_app. lia.
Qed.

(** Enough fuel: [sub] does not depend on it. *)
Lemma sub_fuel_enough r :
  0 < min_len r ->
  forall n m s, length s < n -> length s < m -> sub_fuel n r s = sub_fuel m r s.
Proof.
  intros Hpos. induction n as [|n IH]; intros m s Hn Hm; [lia|].
  destruct m as [|m]; [lia|]. simpl.
  destruct (search r s) as [f|] eqn:E; [|reflexivity].
  pose proof (search_after_shorter _ _ Hpos E).
  f_equal. apply IH; lia.
Qed.

(** [sub], one match at a time. *)
Lemma sub_step r s :
  0 < min_len r ->
  sub r s = match search r s with
            | None => s
            | Some f => before f ++ sub r (after f)
            end.
Proof.
  intros Hpos. unfold sub at 1. simpl.
  destruct (search r s) as [f|] eqn:E; [|reflexivity].
  pose proof (search_after_shorter _ _ Hpos E).
  f_equal. unfold sub. apply sub_fuel_enough; auto; lia.
Qed.

Lemma order_pattern_min_len : 0 < min_len order_pattern.
Proof. simpl. lia. Qed.

(** A found order header always has its two groups. *)
Lemma order_groups f s :
  search order_pattern s = Some f -> exists g1 g2, groups2 f = Some (g1, g2).
Proof.
  intros H. destruct (search_sound _ _ H) as [suf [_ Hm]].
  apply match_here_consumes in Hm. destruct Hm as [_ [_ [_ Hc]]].
  unfold groups2. simpl in Hc.
  destruct (marks f) as [|o1 [|c1 [|o2 [|c2 [|x l]]]]]; try discriminate.
  eauto.
Qed.

(** A quantifier with one count, [p{n}]. *)
Lemma match_fixed p n r s :
  match_here (Rep p n (Some n) :: r) s =
  if n <=? count_prefix p s then match_here r (skipn n s) else None.
Proof.
  simpl. rewrite backtrack_eq.
  destruct (n <=? count_prefix p s) eqn:E.
  - apply Nat.leb_le in E. rewrite Nat.min_l by exact E.
    rewrite Nat.ltb_irrefl.
    destruct (match_here r (skipn n s)); [reflexivity|].
    destruct n as [|n]; [reflexivity|].
    rewrite backtrack_eq.
    assert (H : (n <? S n) = true) by (apply Nat.ltb_lt; lia).
    now rewrite H.
  - apply Nat.leb_gt in E. rewrite Nat.min_r by lia.
    assert (H : (count_prefix p s <? n) = true) by (apply Nat.ltb_lt; lia).
    now rewrite H.
Qed.

Lemma count_ge_cons p n c s :
  (S n <=? count_prefix p (c :: s)) = (p c && (n <=? count_prefix p s)).
Proof. simpl. destruct (p c); reflexivity. Qed.

Lemma count_ge_nil p n : (S n <=? count_prefix p []) = false.
Proof. reflexivity. Qed.

Lemma leb_0 n : (0 <=? n) = true.
Proof. reflexivity. Qed.

Ltac count_chars :=
  repeat first [ rewrite count_ge_cons | rewrite count_ge_nil
               | rewrite leb_0 | progress cbn [skipn andb app] ].

Lemma match_date_pattern s :
  (exists x, match_here date_pattern s = Some x) <->
  exists g post, s = g ++ post /\ date_group g.
Proof.
  unfold date_pattern, Digits, Lit. rewrite !match_fixed. split.
  - intros [x H].
    destruct s as [|a [|b [|h1 [|c [|d [|h2 [|e [|f post]]]]]]]];
      repeat first [ rewrite count_ge_cons in H
                   | rewrite count_ge_nil in H
                   | rewrite leb_0 in H
                   | progress cbn [skipn andb] in H ];
      repeat match type of H with
             | context [if ?p ?ch && _ then _ else _] =>
                 let E := fresh "E" in
                 destruct (p ch) eqn:E; cbn [andb] in H
             end;
      try discriminate.
    apply Ascii.eqb_eq in E1, E4. subst h1 h2.
    exists [a; b; "-"; c; d; "-"; e; f]%char, post. split; [reflexivity|].
    exists a, b, c, d, e, f. repeat split; assumption.
  - intros [g [post [-> [a [b [c [d [e [f [-> [Ha [Hb [Hc [Hd [He Hf]]]]]]]]]]]]]]].
    count_chars. rewrite Ha, Hb, Hc, Hd, He, Hf. cbn. eauto.
Qed.

(** [str.contains(date_pattern)] asks for a date group anywhere in the text. *)
Lemma contains_date_pattern s :
  contains date_pattern s = true <-> has_date_group s.
Proof.
  split.
  - intros H. apply contains_sound in H. destruct H as [pre [suf [x [-> Hm]]]].
    destruct (proj1 (match_date_pattern suf) (ex_intro _ x Hm)) as [g [post [-> Hg]]].
    exists pre, g, post. auto.
  - intros [pre [g [post [-> Hg]]]].
    destruct (proj2 (match_date_pattern (g ++ post))) as [x Hx]; [eauto|].
    eapply contains_complete. exact Hx.
Qed.

(** 'Order No' and one more character that is no line feed. *)
Lemma contains_marker pre c post :
  is_dot c = true ->
  contains marker_pattern
    (pre ++ list_ascii_of_string "Order No" ++ c :: post) = true.
Proof.
  intros Hc.
  apply contains_complete with (x := ([], post)).
  unfold marker_pattern, lits, Lit. cbn [list_ascii_of_string map app].
  rewrite !match_fixed. count_chars. rewrite Hc. reflexivity.
Qed.



End ReFacts.

(** ** The pipeline on a well-formed table *)

Lemma getitem_missing df name :
  assoc name (columns df) = None -> getitem df name = KeyError name.
Proof. unfold getitem. now intros ->. Qed.

Ltac run_pipeline H :=
  repeat first
    [ rewrite getitem_setitem_same in H
    | rewrite getitem_setitem_other in H by reflexivity
    | rewrite getitem_rows_where in H
    | match goal with
      | E : assoc ?n (columns ?d) = Some _ |- _ =>
          rewrite (getitem_assoc d n E) in H
      | E : assoc ?n (columns ?d) = None |- _ =>
          rewrite (getitem_missing d n E) in H
      end
    | progress cbn [bind] in H ].

(** [clean_data] returns a table only when the four columns it reads exist. *)
Lemma clean_data_ok_inv parse_date df out :
  clean_data parse_date df = Ok out ->
  exists ty sd de no,
    assoc "Type" (columns df) = Some ty /\
    assoc "Shipment Date" (columns df) = Some sd /\
    assoc "Description" (columns df) = Some de /\
    assoc "No." (columns df) = Some no.
Proof.
  intros H. unfold clean_data in H.
  destruct (assoc "Type" (columns df)) as [ty|] eqn:Hty;
    [|run_pipeline H; discriminate].
  destruct (assoc "Shipment Date" (columns df)) as [sd|] eqn:Hsd;
    [|run_pipeline H; discriminate].
  destruct (assoc "Description" (columns df)) as [de|] eqn:Hde;
    [|run_pipeline H; discriminate].
  destruct (assoc "No." (columns df)) as [no|] eqn:Hno;
    [|run_pipeline H; discriminate].
  eauto 10.
Qed.

Lemma lookup_combine_seq (A : Type) (l : list A) s k :
  lookup k (combine (seq s (length l)) l) =
  if s <=? k then nth_error l (k - s) else None.
Proof.
  revert s. induction l as [|x l IH]; intros s; simpl.
  - destruct (s <=? k); auto. now destruct (k - s).
  - destruct (Nat.eqb s k) eqn:Ek.
    + apply Nat.eqb_eq in Ek. subst k. now rewrite Nat.leb_refl, Nat.sub_diag.
    + apply Nat.eqb_neq in Ek. rewrite IH.
      destruct (s <=? k) eqn:Es.
      * apply Nat.leb_le in Es.
        assert (Hs : (S s <=? k) = true) by (apply Nat.leb_le; lia).
        rewrite Hs. replace (k - s) with (S (k - S s)) by lia. reflexivity.
      * apply Nat.leb_gt in Es.
        assert (Hs : (S s <=? k) = false) by (apply Nat.leb_gt; lia).
        now rewrite Hs.
Qed.

(** In a well-formed table the row labelled [k] is the row at position [k]. *)
Lemma loc_input df name c k :
  well_formed df -> assoc name (columns df) = Some c ->
  loc df k name = nth_error c k.
Proof.
  intros Hwf Ha. pose proof (well_formed_length _ Hwf Ha) as Hl.
  unfold loc. rewrite Ha. destruct Hwf as [Hi _]. rewrite Hi, <- Hl.
  rewrite lookup_combine_seq. simpl. now rewrite Nat.sub_0_r.
Qed.

Lemma description_after_missing c :
  description_after c = NaN <-> forall s, c <> Str s.
Proof.
  destruct c as [|t|z|d]; unfold description_after; simpl; split; intros H;
    try reflexivity; try congruence; try discriminate.
Qed.

Lemma nth_error_kept no de k :
  length no = length de ->
  nth_error (kept no de) k = Some true <->
  exists cn cd,
    nth_error no k = Some cn /\ str_contains Re.marker_pattern false cn = false /\
    nth_error de k = Some cd /\ description_after cd <> NaN.
Proof.
  intros Hl. unfold kept, unmarked, description_clean.
  rewrite nth_error_both by (rewrite !length_map; exact Hl).
  rewrite !nth_error_map.
  destruct (nth_error no k) as [cn|]; destruct (nth_error de k) as [cd|]; simpl.
  - split.
    + intros H. injection H as H. apply andb_true_iff in H. destruct H as [H1 H2].
      exists cn, cd. repeat split; auto.
      * now apply negb_true_iff in H1.
      * unfold description_after. intros E. rewrite E in H2. discriminate.
    + intros [cn' [cd' [E1 [H1 [E2 H2]]]]]. injection E1 as <-. injection E2 as <-.
      rewrite H1. simpl. f_equal. unfold description_after in H2.
      now destruct (str_strip (str_replace_empty Re.order_pattern cd)).
  - split; [discriminate|]. intros [cn' [cd' [_ [_ [E _]]]]]. discriminate.
  - split; [discriminate|]. intros [cn' [cd' [E _]]]. discriminate.
  - split; [discriminate|]. intros [cn' [cd' [E _]]]. discriminate.
Qed.

(** The pipeline on a well-formed table: the rows that reach the output, and
    what each of them holds. *)
Lemma clean_data_spec parse_date df out :
  well_formed df -> clean_data parse_date df = Ok out ->
  exists ty sd de no,
    (assoc "Type" (columns df) = Some ty /\
     assoc "Shipment Date" (columns df) = Some sd /\
     assoc "Description" (columns df) = Some de /\
     assoc "No." (columns df) = Some no) /\
    (forall k, In k (index out) <-> survives df k) /\
    forall k, In k (index out) ->
      k < nrows df /\
      loc out k "Customer_Name" = nth_error (ffill (customer_name_src ty)) k /\
      loc out k "Type" = nth_error (type_clean ty) k /\
      loc out k "CID" = nth_error (ffill (cid_src sd)) k /\
      loc out k "Shipment_Date"
      = nth_error (to_datetime parse_date (ffill (shipment_src sd))) k /\
      loc out k "Order_No" = nth_error (ffill (order_no_src de)) k /\
      loc out k "Order_Date"
      = nth_error (to_datetime parse_date (ffill (order_date_src de))) k /\
      loc out k "Description" = nth_error (description_clean de) k /\
      loc out k "No." = nth_error (ffill (no_src no)) k.
Proof.
  intros Hwf Hrun.
  destruct (clean_data_ok_inv _ _ Hrun) as [ty [sd [de [no [Hty [Hsd [Hde Hno]]]]]]].
  destruct (clean_data_rows parse_date Hwf Hty Hsd Hde Hno)
    as [out' [Hrun' [Hin Hloc]]].
  rewrite Hrun in Hrun'. injection Hrun' as <-.
  pose proof (well_formed_length _ Hwf Hde) as Ld.
  pose proof (well_formed_length _ Hwf Hno) as Ln.
  exists ty, sd, de, no. split; [auto|]. split.
  - intros k. rewrite Hin, nth_error_kept by lia.
    unfold survives. rewrite (loc_input _ k Hwf Hno), (loc_input _ k Hwf Hde).
    reflexivity.
  - intros k Hk. split; [|now apply Hloc].
    apply Hin in Hk.
    rewrite <- (kept_length Hwf Hde Hno).
    apply nth_error_Some. congruence.
Qed.

Lemma ffill_from_own a s k c :
  nth_error s k = Some c -> c <> NaN -> nth_error (ffill_from a s) k = Some c.
Proof.
  revert a k. induction s as [|x s IH]; intros a [|k]; simpl; try discriminate.
  - intros E Hc. injection E as ->. destruct c; auto. contradiction.
  - intros E Hc. now apply IH.
Qed.

Lemma ffill_own s k c :
  nth_error s k = Some c -> c <> NaN -> nth_error (ffill s) k = Some c.
Proof. apply ffill_from_own. Qed.

(** Filling copies cells: what holds of every cell and of the missing cell
    holds of every filled cell. *)
Lemma ffill_from_Forall (P : cell -> Prop) a s :
  P a -> Forall P s -> Forall P (ffill_from a s).
Proof.
  revert a. induction s as [|x s IH]; intros a Ha Hs; simpl; constructor;
    inversion Hs; subst.
  - now destruct (isna x).
  - apply IH; auto. now destruct (isna x).
Qed.

(** What [to_datetime] is given: texts and missing cells. *)
Lemma to_datetime_strings_only sd de :
  Forall text_or_missing (ffill (shipment_src sd)) /\
  Forall text_or_missing (ffill (order_date_src de)).
Proof.
  split; apply ffill_from_Forall; try exact I.
  - unfold shipment_src, is_date_text.
    induction sd as [|c sd IH]; simpl; constructor; auto.
    destruct c as [|s|z|d]; simpl; try exact I.
    destruct (Re.contains Re.date_pattern (txt s)); exact I.
  - unfold order_date_src.
    induction de as [|c de IH]; simpl; constructor; auto.
    destruct c as [|s|z|d]; simpl; try exact I.
    destruct (extract_text Re.order_pattern s) as [[g1 g2]|]; exact I.
Qed.

Lemma nth_error_ffill_some s k :
  k < length s -> exists v, nth_error (ffill s) k = Some v.
Proof.
  intros H. destruct (nth_error (ffill s) k) eqn:E; [eauto|].
  apply nth_error_None in E. rewrite ffill_length in E. lia.
Qed.

Ltac series_length :=
  unfold to_datetime, customer_name_src, type_clean, cid_src, shipment_src,
    order_no_src, order_date_src, description_clean, no_src, is_date_text,
    unmarked;
  rewrite ?length_map, ?ffill_length, ?length_map;
  rewrite ?where_length; rewrite ?length_map; auto.

Lemma filled_nearest s k n :
  length s = n -> k < n ->
  exists v, nth_error (ffill s) k = Some v /\ nearest s k v.
Proof.
  intros Hl Hk. destruct (nth_error_ffill_some s) with (k := k) as [v Hv]; [lia|].
  exists v. split; [exact Hv|]. now apply ffill_nearest.
Qed.

(** ** The worked table of two customers *)

Lemma orders_well_formed : well_formed orders.
Proof. split; [reflexivity|]. repeat constructor. Defined.

Lemma orders_run : clean_data month_first orders = Ok orders_cleaned.
Proof. vm_compute. reflexivity. Defined.

(** ** Forward fill *)

(** C1 - Forward-fill correctness.  For each of the six propagated columns
    and every row of the cleaned table, the value is the nearest non-missing
    value at or above that row in the column as it stands when it is filled,
    rows taken in the order of the input, and it is missing when there is
    none.  The two date columns are filled as text and parsed afterwards;
    [No.] is filled after the marker rows have left the table. *)
Theorem forward_fill_correct parse_date df out ty sd de no k :
  well_formed df ->
  assoc "Type" (columns df) = Some ty ->
  assoc "Shipment Date" (columns df) = Some sd ->
  assoc "Description" (columns df) = Some de ->
  assoc "No." (columns df) = Some no ->
  clean_data parse_date df = Ok out ->
  In k (index out) ->
  exists cn cid sh ono od nb,
    (loc out k "Customer_Name" = Some cn /\ nearest (customer_name_src ty) k cn) /\
    (loc out k "CID" = Some cid /\ nearest (cid_src sd) k cid) /\
    (loc out k "Shipment_Date" = Some (to_datetime_cell parse_date sh) /\
     nearest (shipment_src sd) k sh) /\
    (loc out k "Order_No" = Some ono /\ nearest (order_no_src de) k ono) /\
    (loc out k "Order_Date" = Some (to_datetime_cell parse_date od) /\
     nearest (order_date_src de) k od) /\
    (loc out k "No." = Some nb /\ nearest (no_src no) k nb).
Proof.
  intros Hwf Hty Hsd Hde Hno Hrun Hk.
  destruct (clean_data_spec _ Hwf Hrun)
    as [ty' [sd' [de' [no' [[Hty' [Hsd' [Hde' Hno']]] [_ Hloc]]]]]].
  assert (ty' = ty) by congruence. assert (sd' = sd) by congruence.
  assert (de' = de) by congruence. assert (no' = no) by congruence.
  subst ty' sd' de' no'.
  destruct (Hloc k Hk) as [Hlt [Lcn [_ [Lcid [Lsh [Lon [Lod [_ Lno]]]]]]]].
  pose proof (well_formed_length _ Hwf Hty) as Lt.
  pose proof (well_formed_length _ Hwf Hsd) as Ls.
  pose proof (well_formed_length _ Hwf Hde) as Ld.
  pose proof (well_formed_length _ Hwf Hno) as Ln.
  destruct (@filled_nearest (customer_name_src ty) k (nrows df))
    as [cn [Ecn Ncn]]; [series_length|exact Hlt|].
  destruct (@filled_nearest (cid_src sd) k (nrows df))
    as [cid [Ecid Ncid]]; [series_length|exact Hlt|].
  destruct (@filled_nearest (shipment_src sd) k (nrows df))
    as [sh [Esh Nsh]]; [series_length|exact Hlt|].
  destruct (@filled_nearest (order_no_src de) k (nrows df))
    as [ono [Eon Non]]; [series_length|exact Hlt|].
  destruct (@filled_nearest (order_date_src de) k (nrows df))
    as [od [Eod Nod]]; [series_length|exact Hlt|].
  destruct (@filled_nearest (no_src no) k (nrows df))
    as [nb [Enb Nnb]]; [series_length|exact Hlt|].
  exists cn, cid, sh, ono, od, nb.
  unfold to_datetime in Lsh, Lod. rewrite nth_error_map in Lsh, Lod.
  rewrite Esh in Lsh. rewrite Eod in Lod.
  repeat split; try assumption; congruence.
Qed.

Lemma forward_fill_correct_witness :
  well_formed orders /\
  clean_data month_first orders = Ok orders_cleaned /\
  In 3 (index orders_cleaned) /\
  exists cn cid sh ono od nb,
    (loc orders_cleaned 3 "Customer_Name" = Some cn /\
     nearest (customer_name_src
                [Str "Acme Deli"; NaN; Str "Item"; Str "Item";
                 Str "Global Deli Express"; NaN; Str "Item"]) 3 cn) /\
    (loc orders_cleaned 3 "CID" = Some cid /\
     nearest (cid_src [Str "ID123"; Str "01-02-23"; NaN; NaN;
                       Str "ID456"; Str "03-04-23"; NaN]) 3 cid) /\
    (loc orders_cleaned 3 "Shipment_Date" = Some (to_datetime_cell month_first sh) /\
     nearest (shipment_src [Str "ID123"; Str "01-02-23"; NaN; NaN;
                            Str "ID456"; Str "03-04-23"; NaN]) 3 sh) /\
    (loc orders_cleaned 3 "Order_No" = Some ono /\
     nearest (order_no_src
                [NaN; Str "55555 6/7/2023"; Str "widget"; Str "gadget";
                 NaN; Str "66666 8/9/2023"; Str "bolt"]) 3 ono) /\
    (loc orders_cleaned 3 "Order_Date" = Some (to_datetime_cell month_first od) /\
     nearest (order_date_src
                [NaN; Str "55555 6/7/2023"; Str "widget"; Str "gadget";
                 NaN; Str "66666 8/9/2023"; Str "bolt"]) 3 od) /\
    (loc orders_cleaned 3 "No." = Some nb /\
     nearest (no_src [NaN; Str "Order No."; Str "10000"; NaN;
                      NaN; Str "Order No."; Str "20000"]) 3 nb).
Proof.
  split; [exact orders_well_formed|].
  split; [exact orders_run|].
  split; [simpl; auto|].
  apply (@forward_fill_correct month_first orders orders_cleaned);
    [exact orders_well_formed|reflexivity|reflexivity|reflexivity|reflexivity
    |exact orders_run|simpl; auto].
Defined.

(** ** Shipment Date classification *)







Lemma probe_has_date_group : Re.has_date_group (txt "AB12-34-56CD").
Proof.
  exists (txt "AB"), (txt "12-34-56"), (txt "CD"). split; [reflexivity|].
  exists "1"%char, "2"%char, "3"%char, "4"%char, "5"%char, "6"%char.
  repeat split.
Defined.



(** ** Order header extraction *)

Lemma nth_error_extract de k c :
  nth_error de k = Some c ->
  nth_error (order_no_src de) k = Some (fst (str_extract Re.order_pattern c)) /\
  nth_error (order_date_src de) k = Some (snd (str_extract Re.order_pattern c)).
Proof.
  intros H. unfold order_no_src, order_date_src.
  now rewrite !nth_error_map, H.
Qed.

Lemma nth_error_description_clean de k c :
  nth_error de k = Some c ->
  nth_error (description_clean de) k = Some (description_after c).
Proof.
  intros H. unfold description_clean, description_after.
  now rewrite !nth_error_map, H.
Qed.

Lemma survives_intro df k cn s :
  loc df k "No." = Some cn ->
  str_contains Re.marker_pattern false cn = false ->
  loc df k "Description" = Some (Str s) ->
  survives df k.
Proof.
  intros Hn Hm Hd. exists cn, (Str s). repeat split; auto. discriminate.
Qed.

(** A row with an order header in its description: the header's number and
    date reach [Order_No] and [Order_Date] of that row. *)
Lemma header_row parse_date df out k s g1 g2 :
  well_formed df -> clean_data parse_date df = Ok out -> In k (index out) ->
  loc df k "Description" = Some (Str s) ->
  extract_text Re.order_pattern s = Some (g1, g2) ->
  loc out k "Order_No" = Some (Str g1) /\
  loc out k "Order_Date" = Some (to_datetime_cell parse_date (Str g2)) /\
  loc out k "Description" = Some (description_after (Str s)).
Proof.
  intros Hwf Hrun Hk Hd He.
  destruct (clean_data_spec _ Hwf Hrun)
    as [ty [sd [de [no [[_ [_ [Hde _]]] [_ Hloc]]]]]].
  destruct (Hloc k Hk) as [_ [_ [_ [_ [_ [Lon [Lod [Lds _]]]]]]]].
  rewrite (loc_input _ k Hwf Hde) in Hd.
  destruct (nth_error_extract _ _ Hd) as [E1 E2].
  unfold str_extract in E1, E2. rewrite He in E1, E2. simpl in E1, E2.
  split; [|split].
  - rewrite Lon. apply ffill_own; [exact E1|discriminate].
  - rewrite Lod. unfold to_datetime. rewrite nth_error_map.
    rewrite (@ffill_own _ k (Str g2)); [reflexivity|exact E2|discriminate].
  - rewrite Lds. now apply nth_error_description_clean.
Qed.

Lemma restock_well_formed : well_formed restock.
Proof. split; [reflexivity|]. repeat constructor. Defined.

Lemma restock_run : clean_data month_first restock = Ok restock_cleaned.
Proof. vm_compute. reflexivity. Defined.

(** C3 - Extraction round-trip.  A row whose Description is
    "12345 3/4/2024 widget restock", and which is no marker row, is in the
    output with Order_No "12345", Order_Date the parsed date of "3/4/2024"
    and Description "widget restock". *)
Theorem extraction_round_trip parse_date df out k cn :
  well_formed df ->
  clean_data parse_date df = Ok out ->
  loc df k "Description" = Some (Str "12345 3/4/2024 widget restock") ->
  loc df k "No." = Some cn ->
  str_contains Re.marker_pattern false cn = false ->
  In k (index out) /\
  loc out k "Order_No" = Some (Str "12345") /\
  loc out k "Order_Date" = Some (to_datetime_cell parse_date (Str "3/4/2024")) /\
  loc out k "Description" = Some (Str "widget restock").
Proof.
  intros Hwf Hrun Hd Hn Hm.
  assert (Hk : In k (index out)).
  { destruct (clean_data_spec _ Hwf Hrun) as [ty [sd [de [no [_ [Hin _]]]]]].
    apply Hin. eapply survives_intro; eauto. }
  split; [exact Hk|].
  assert (He : extract_text Re.order_pattern "12345 3/4/2024 widget restock"
               = Some ("12345", "3/4/2024")) by (vm_compute; reflexivity).
  destruct (@header_row parse_date df out k _ _ _ Hwf Hrun Hk Hd He)
    as [H1 [H2 H3]].
  repeat split; assumption.
Qed.

Lemma extraction_round_trip_witness :
  well_formed restock /\
  clean_data month_first restock = Ok restock_cleaned /\
  loc restock 0 "Description" = Some (Str "12345 3/4/2024 widget restock") /\
  loc restock 0 "No." = Some (Str "10000") /\
  str_contains Re.marker_pattern false (Str "10000") = false /\
  In 0 (index restock_cleaned) /\
  loc restock_cleaned 0 "Order_No" = Some (Str "12345") /\
  loc restock_cleaned 0 "Order_Date" = Some (Ts (mkDate 2024 3 4)) /\
  loc restock_cleaned 0 "Description" = Some (Str "widget restock").
Proof.
  split; [exact restock_well_formed|].
  split; [exact restock_run|].
  split; [reflexivity|]. split; [reflexivity|]. split; [reflexivity|].
  apply (@extraction_round_trip month_first restock restock_cleaned 0
           (Str "10000"));
    [exact restock_well_formed|exact restock_run|reflexivity|reflexivity
    |reflexivity].
Defined.

(** ** Row filters *)

(** A row whose [No.] matches the marker pattern does not survive. *)
Lemma marked_row_dropped parse_date df out k cn :
  well_formed df -> clean_data parse_date df = Ok out ->
  loc df k "No." = Some cn ->
  str_contains Re.marker_pattern false cn = true ->
  ~ In k (index out).
Proof.
  intros Hwf Hrun Hn Hm Hk.
  destruct (clean_data_spec _ Hwf Hrun) as [ty [sd [de [no [_ [Hin _]]]]]].
  apply Hin in Hk. destruct Hk as [cn' [cd [Hn' [Hm' _]]]].
  congruence.
Qed.




(** C10 - Marker over-drop.  The marker test is a search for the regular
    expression 'Order No.': a row whose 'No.' holds "Order No" followed by
    any character but a line feed, anywhere in its text, is removed, also
    when the text is not "Order No." itself. *)
Theorem marker_over_drop parse_date df out k v pre c post :
  well_formed df ->
  clean_data parse_date df = Ok out ->
  loc df k "No." = Some (Str v) ->
  v <> "Order No." ->
  txt v = pre ++ txt "Order No" ++ c :: post ->
  Re.is_dot c = true ->
  ~ In k (index out).
Proof.
  intros Hwf Hrun Hn _ Hv Hc.
  eapply marked_row_dropped; eauto.
  simpl. rewrite Hv. now apply ReFacts.contains_marker.
Qed.

Lemma near_markers_well_formed : well_formed near_markers.
Proof. split; [reflexivity|]. repeat constructor. Defined.

Lemma near_markers_run :
  clean_data month_first near_markers = Ok near_markers_cleaned.
Proof. vm_compute. reflexivity. Defined.

Lemma marker_over_drop_witness :
  well_formed near_markers /\
  clean_data month_first near_markers = Ok near_markers_cleaned /\
  loc near_markers 0 "No." = Some (Str "XOrder Now") /\
  "XOrder Now" <> "Order No." /\
  txt "XOrder Now" = txt "X" ++ txt "Order No" ++ "w"%char :: [] /\
  Re.is_dot "w" = true /\
  ~ In 0 (index near_markers_cleaned).
Proof.
  split; [exact near_markers_well_formed|].
  split; [exact near_markers_run|].
  split; [reflexivity|].
  split; [discriminate|].
  split; [reflexivity|].
  split; [reflexivity|].
  apply (@marker_over_drop month_first near_markers near_markers_cleaned 0
           "XOrder Now" (txt "X") "w"%char []);
    [exact near_markers_well_formed|exact near_markers_run|reflexivity
    |discriminate|reflexivity|reflexivity].
Defined.

(** The second text of the same kind, "Order Nos 5", goes the same way. *)
Lemma order_nos_dropped :
  loc near_markers 1 "No." = Some (Str "Order Nos 5") /\
  ~ In 1 (index near_markers_cleaned).
Proof.
  split; [reflexivity|]. simpl. intros [H|[]]. discriminate.
Qed.

(** C5, as the code has it - Description filter.  After the extraction a
    row whose Description is missing is dropped from the cleaned output, and
    every row that stays has a text as its Description. *)
Theorem description_filter parse_date df out k :
  well_formed df ->
  clean_data parse_date df = Ok out ->
  (forall c, loc df k "Description" = Some c -> description_after c = NaN ->
             ~ In k (index out)) /\
  (In k (index out) -> exists s, loc out k "Description" = Some (Str s)).
Proof.
  intros Hwf Hrun.
  destruct (clean_data_spec _ Hwf Hrun)
    as [ty [sd [de [no [[_ [_ [Hde _]]] [Hin Hloc]]]]]].
  split.
  - intros c Hc Hna Hk. apply Hin in Hk.
    destruct Hk as [cn [cd [_ [_ [Hd Hnn]]]]]. congruence.
  - intros Hk. destruct (Hloc k Hk) as [_ [_ [_ [_ [_ [_ [_ [Lds _]]]]]]]].
    apply Hin in Hk. destruct Hk as [cn [cd [_ [_ [Hd Hnn]]]]].
    rewrite (loc_input _ k Hwf Hde) in Hd.
    rewrite Lds, (nth_error_description_clean _ _ Hd).
    destruct cd as [|t|z|d]; try (exfalso; apply Hnn; reflexivity).
    unfold description_after. simpl. eauto.
Qed.

Lemma description_filter_witness :
  well_formed orders /\
  clean_data month_first orders = Ok orders_cleaned /\
  (forall c, loc orders 0 "Description" = Some c -> description_after c = NaN ->
             ~ In 0 (index orders_cleaned)) /\
  (In 0 (index orders_cleaned) ->
   exists s, loc orders_cleaned 0 "Description" = Some (Str s)).
Proof.
  split; [exact orders_well_formed|].
  split; [exact orders_run|].
  apply (@description_filter month_first orders orders_cleaned 0);
    [exact orders_well_formed|exact orders_run].
Defined.

(** C5 as written fails: the description "12345 3/4/2024" is the
    empty text after the extraction, and its row is in the output. *)
Lemma empty_description_kept_counterexample :
  loc header_only 0 "Description" = Some (Str "12345 3/4/2024") /\
  description_after (Str "12345 3/4/2024") = Str "" /\
  clean_data month_first header_only = Ok header_only_cleaned /\
  In 0 (index header_only_cleaned) /\
  loc header_only_cleaned 0 "Description" = Some (Str "").
Proof.
  split; [reflexivity|]. split; [vm_compute; reflexivity|].
  split; [vm_compute; reflexivity|]. split; [simpl; auto|reflexivity].
Qed.

(** ** Dates that do not parse *)




(** Both malformed dates are rejected by the month-first parser, every row
    stays, and the date fields are missing. *)
Lemma malformed_run : clean_data month_first malformed = Ok malformed_cleaned.
Proof. vm_compute. reflexivity. Defined.


(** ** More than one order header in a description *)

Lemma order_sub_step s :
  Re.sub Re.order_pattern s =
  match Re.search Re.order_pattern s with
  | None => s
  | Some f => Re.before f ++ Re.sub Re.order_pattern (Re.after f)
  end.
Proof. apply ReFacts.sub_step. exact ReFacts.order_pattern_min_len. Qed.

Lemma txt_untxt t : txt (untxt t) = t.
Proof. apply list_ascii_of_string_of_list_ascii. Qed.

Lemma description_after_step s f :
  Re.search Re.order_pattern (txt s) = Some f ->
  description_after (Str s)
  = Str (untxt (Re.strip (Re.before f ++ Re.sub Re.order_pattern (Re.after f)))).
Proof.
  intros H. unfold description_after. simpl.
  rewrite txt_untxt, order_sub_step, H. reflexivity.
Qed.

(** C7, as the code has it - Extraction from the first match, removal of
    every match.  Order_No and Order_Date are the two groups of the first
    (leftmost) match of the order-header pattern; the Description loses that
    match and every later match found when the scan goes on after it, and is
    then trimmed. *)
Theorem first_match_extracted_all_removed parse_date df out k s f :
  well_formed df ->
  clean_data parse_date df = Ok out ->
  In k (index out) ->
  loc df k "Description" = Some (Str s) ->
  Re.search Re.order_pattern (txt s) = Some f ->
  (forall pre suf, txt s = pre ++ suf -> length pre < length (Re.before f) ->
                   Re.match_here Re.order_pattern suf = None) /\
  (exists g1 g2,
     Re.groups2 f = Some (g1, g2) /\
     loc out k "Order_No" = Some (Str (untxt g1)) /\
     loc out k "Order_Date"
     = Some (to_datetime_cell parse_date (Str (untxt g2)))) /\
  loc out k "Description"
  = Some (Str (untxt (Re.strip (Re.before f
                                ++ Re.sub Re.order_pattern (Re.after f))))) /\
  (forall f2, Re.search Re.order_pattern (Re.after f) = Some f2 ->
              Re.sub Re.order_pattern (Re.after f)
              = Re.before f2 ++ Re.sub Re.order_pattern (Re.after f2)).
Proof.
  intros Hwf Hrun Hk Hd Hf.
  split; [exact (@ReFacts.search_leftmost Re.order_pattern (txt s) f Hf)|].
  destruct (@ReFacts.order_groups f (txt s) Hf) as [g1 [g2 Hg]].
  assert (He : extract_text Re.order_pattern s = Some (untxt g1, untxt g2)).
  { unfold extract_text. now rewrite Hf, Hg. }
  destruct (@header_row parse_date df out k _ _ _ Hwf Hrun Hk Hd He)
    as [H1 [H2 H3]].
  split; [exists g1, g2; auto|]. split.
  - rewrite H3. f_equal. now apply description_after_step.
  - intros f2 Hf2.
    rewrite order_sub_step, Hf2. reflexivity.
Qed.

Lemma two_headers_well_formed : well_formed two_headers.
Proof. split; [reflexivity|]. repeat constructor. Defined.

Lemma two_headers_run : clean_data month_first two_headers = Ok two_headers_cleaned.
Proof. vm_compute. reflexivity. Defined.

Lemma first_match_extracted_all_removed_witness :
  well_formed two_headers /\
  clean_data month_first two_headers = Ok two_headers_cleaned /\
  In 0 (index two_headers_cleaned) /\
  loc two_headers 0 "Description"
  = Some (Str "12345 3/4/2024 and 67890 5/6/2025 x") /\
  Re.search Re.order_pattern (txt "12345 3/4/2024 and 67890 5/6/2025 x")
  = Some two_headers_first /\
  (forall pre suf,
     txt "12345 3/4/2024 and 67890 5/6/2025 x" = pre ++ suf ->
     length pre < length (Re.before two_headers_first) ->
     Re.match_here Re.order_pattern suf = None) /\
  (exists g1 g2,
     Re.groups2 two_headers_first = Some (g1, g2) /\
     loc two_headers_cleaned 0 "Order_No" = Some (Str (untxt g1)) /\
     loc two_headers_cleaned 0 "Order_Date"
     = Some (to_datetime_cell month_first (Str (untxt g2)))) /\
  loc two_headers_cleaned 0 "Description" = Some (Str "and  x") /\
  (forall f2,
     Re.search Re.order_pattern (Re.after two_headers_first) = Some f2 ->
     Re.sub Re.order_pattern (Re.after two_headers_first)
     = Re.before f2 ++ Re.sub Re.order_pattern (Re.after f2)).
Proof.
  split; [exact two_headers_well_formed|].
  split; [exact two_headers_run|].
  split; [simpl; auto|].
  split; [reflexivity|].
  split; [vm_compute; reflexivity|].
  apply (@first_match_extracted_all_removed month_first two_headers
           two_headers_cleaned 0 "12345 3/4/2024 and 67890 5/6/2025 x"
           two_headers_first);
    [exact two_headers_well_formed|exact two_headers_run|simpl; auto
    |reflexivity|vm_compute; reflexivity].
Defined.

(** C7 as written fails: with two order headers in one description
    the second is removed as well, where removing the first match alone
    would leave it in place. *)
Lemma later_match_removed_counterexample :
  loc two_headers 0 "Description"
  = Some (Str "12345 3/4/2024 and 67890 5/6/2025 x") /\
  untxt (Re.strip (Re.sub_first Re.order_pattern
                     (txt "12345 3/4/2024 and 67890 5/6/2025 x")))
  = "and 67890 5/6/2025 x" /\
  clean_data month_first two_headers = Ok two_headers_cleaned /\
  loc two_headers_cleaned 0 "Order_No" = Some (Str "12345") /\
  loc two_headers_cleaned 0 "Description" = Some (Str "and  x") /\
  loc two_headers_cleaned 0 "Description" <> Some (Str "and 67890 5/6/2025 x").
Proof.
  split; [reflexivity|]. split; [vm_compute; reflexivity|].
  split; [exact two_headers_run|]. split; [reflexivity|].
  split; [reflexivity|]. discriminate.
Qed.

(** ** Running the pipeline on its own output *)

Ltac run_pipeline_goal :=
  repeat first
    [ rewrite getitem_setitem_same
    | rewrite getitem_setitem_other by reflexivity
    | rewrite getitem_rows_where
    | match goal with
      | E : assoc ?n (columns ?d) = Some _ |- _ => rewrite (getitem_assoc d n E)
      | E : assoc ?n (columns ?d) = None |- _ => rewrite (getitem_missing d n E)
      end
    | progress cbn [bind] ].

(** C9, as the code has it - No idempotence.  The projected output has no
    'Shipment Date' column any more, and [clean_data] reads that column: run
    on its own output, the pipeline stops with a missing-column error and
    returns no table. *)
Theorem rerun_stops_on_missing_column parse_date df out :
  clean_data parse_date df = Ok out ->
  clean_data parse_date out = KeyError "Shipment Date".
Proof.
  intros Hrun.
  destruct (clean_data_ok_inv _ _ Hrun) as [ty [sd [de [no [Hty [Hsd [Hde Hno]]]]]]].
  destruct (clean_data_closed_form parse_date df Hty Hsd Hde Hno)
    as [cols [Hrun' [_ [Htp [_ [_ [_ [_ [_ [_ Hmiss]]]]]]]]]].
  rewrite Hrun in Hrun'. injection Hrun' as ->.
  change cols with (columns (mkDF (select
      (map notna (select (unmarked no) (description_clean de)))
      (select (unmarked no) (index df))) cols)) in Htp, Hmiss.
  unfold clean_data. run_pipeline_goal. reflexivity.
Qed.

Lemma rerun_stops_on_missing_column_witness :
  clean_data month_first orders = Ok orders_cleaned /\
  clean_data month_first orders_cleaned = KeyError "Shipment Date".
Proof.
  split; [exact orders_run|].
  apply (@rerun_stops_on_missing_column month_first orders orders_cleaned).
  exact orders_run.
Defined.

(** C9 as written fails: the second run is no no-op, it returns no
    table at all. *)
Lemma rerun_counterexample :
  clean_data month_first orders = Ok orders_cleaned /\
  clean_data month_first orders_cleaned = KeyError "Shipment Date" /\
  clean_data month_first orders_cleaned <> Ok orders_cleaned.
Proof.
  split; [exact orders_run|]. split; [vm_compute; reflexivity|].
  vm_compute. discriminate.
Qed.

(** With a 'Shipment Date' column put back (here a copy of CID) the second
    run does return a table, and it has reinterpreted the columns: the
    customer names, order numbers and dates of the first run are gone. *)
Lemma rerun_with_shipment_column_blanks :
  clean_data month_first
    (setitem orders_cleaned "Shipment Date"
       [Str "ID123"; Str "ID123"; Str "ID456"])
  = Ok (mkDF [2; 3; 6]
          [("CID", [Str "ID123"; Str "ID123"; Str "ID456"]);
           ("Shipment_Date", [NaN; NaN; NaN]);
           ("Customer_Name", [NaN; NaN; NaN]);
           ("Type", [Str "Item"; Str "Item"; Str "Item"]);
           ("No.", [Str "10000"; Str "10000"; Str "20000"]);
           ("Order_No", [NaN; NaN; NaN]); ("Order_Date", [NaN; NaN; NaN]);
           ("Description", [Str "widget"; Str "gadget"; Str "bolt"]);
           ("Quantity", [Num 5; Num 3; Num 7])]).
Proof. vm_compute. reflexivity. Qed.

(** ** The Deli / FOC partition *)


Lemma In_select (A : Type) m (l : list A) x : In x (select m l) -> In x l.
Proof.
  revert m. induction l as [|y l IH]; intros m; destruct m as [|b m]; simpl;
    try tauto.
  destruct b; simpl; intros H.
  - destruct H as [H|H]; [now left|right; eauto].
  - right; eauto.
Qed.

Lemma select_NoDup (A : Type) m (l : list A) : NoDup l -> NoDup (select m l).
Proof.
  revert m. induction l as [|y l IH]; intros [|b m] H; simpl; try constructor.
  inversion H; subst. destruct b; [|now apply IH].
  constructor; [|now apply IH]. intros Hin. apply In_select in Hin. contradiction.
Qed.

Lemma select_length_eq (A B : Type) m (a : list A) (b : list B) :
  length a = length b -> length (select m a) = length (select m b).
Proof.
  revert m b. induction a as [|x a IH]; intros [|c m] [|y b] H; simpl; auto;
    try discriminate.
  destruct c; simpl; auto.
Qed.








(** The output of the pipeline has distinct row labels and a
    [Customer_Name] cell for every row. *)
Lemma clean_data_output_shape parse_date df out :
  well_formed df -> clean_data parse_date df = Ok out ->
  NoDup (index out) /\
  exists cn, assoc "Customer_Name" (columns out) = Some cn /\
             length cn = nrows out.
Proof.
  intros Hwf Hrun.
  destruct (clean_data_ok_inv _ _ Hrun) as [ty [sd [de [no [Hty [Hsd [Hde Hno]]]]]]].
  destruct (clean_data_closed_form parse_date df Hty Hsd Hde Hno)
    as [cols [Hrun' [Hcn _]]].
  rewrite Hrun in Hrun'. injection Hrun' as ->.
  pose proof (well_formed_length _ Hwf Hty) as Lt.
  destruct Hwf as [Hi _]. split.
  - simpl. apply select_NoDup, select_NoDup. rewrite Hi. apply seq_NoDup.
  - eexists. split; [exact Hcn|]. unfold nrows; simpl.
    apply select_length_eq, select_length_eq.
    series_length.
Qed.

(** The split of any table with distinct row labels. *)
Section Partition.

Variables (cleaned : DataFrame) (cn : series).
Hypothesis Hnd : NoDup (index cleaned).
Hypothesis Hcn : assoc "Customer_Name" (columns cleaned) = Some cn.
Hypothesis Hlen : length cn = nrows cleaned.

Let mask := map (str_endswith "Deli" false) cn.







End Partition.



(** The worked table: the two rows of "Acme Deli" are the Deli part, the row
    of "Global Deli Express" is the FOC part. *)
Lemma orders_split :
  spp_deli_df orders_cleaned
  = Ok (mkDF [2; 3]
          [("CID", [Str "ID123"; Str "ID123"]);
           ("Shipment_Date", [Ts (mkDate 2023 1 2); Ts (mkDate 2023 1 2)]);
           ("Customer_Name", [Str "Acme Deli"; Str "Acme Deli"]);
           ("Type", [Str "Item"; Str "Item"]);
           ("No.", [Str "10000"; Str "10000"]);
           ("Order_No", [Str "55555"; Str "55555"]);
           ("Order_Date", [Ts (mkDate 2023 6 7); Ts (mkDate 2023 6 7)]);
           ("Description", [Str "widget"; Str "gadget"]);
           ("Quantity", [Num 5; Num 3])]) /\
  spp_foc_df orders_cleaned
  = Ok (mkDF [6]
          [("CID", [Str "ID456"]);
           ("Shipment_Date", [Ts (mkDate 2023 3 4)]);
           ("Customer_Name", [Str "Global Deli Express"]);
           ("Type", [Str "Item"]);
           ("No.", [Str "20000"]);
           ("Order_No", [Str "66666"]);
           ("Order_Date", [Ts (mkDate 2023 8 9)]);
           ("Description", [Str "bolt"]);
           ("Quantity", [Num 7])]).
Proof. split; vm_compute; reflexivity. Qed.

(** The suffix test is case sensitive. *)
Lemma deli_suffix_case_sensitive :
  str_endswith "Deli" false (Str "Acme Deli") = true /\
  str_endswith "Deli" false (Str "ACME DELI") = false /\
  str_endswith "Deli" false (Str "Acme deli") = false /\
  str_endswith "Deli" false (Str "Global Deli Express") = false /\
  str_endswith "Deli" false NaN = false.
Proof. repeat split. Qed.

(** * Further properties of the pipeline *)

(** ** Missing columns and the output schema *)

Lemma bind_ret (A : Type) (m : result A) : (x <- m ;; Ok x) = m.
Proof. now destruct m. Qed.

(** The pipeline is the projection of [before_projection] on the columns of
    the schema that it has. *)
Lemma clean_data_staged parse_date df ty sd de no :
  assoc "Type" (columns df) = Some ty ->
  assoc "Shipment Date" (columns df) = Some sd ->
  assoc "Description" (columns df) = Some de ->
  assoc "No." (columns df) = Some no ->
  clean_data parse_date df
  = getitems (before_projection parse_date df ty sd de no)
      (filter (has_column (before_projection parse_date df ty sd de no))
         output_columns).
Proof.
  intros Hty Hsd Hde Hno. unfold clean_data.
  run_pipeline_goal. unfold dropna_subset. run_pipeline_goal.
  rewrite bind_ret. reflexivity.
Qed.

Lemma has_column_setitem df name v n :
  has_column (setitem df name v) n = (String.eqb name n || has_column df n).
Proof.
  unfold has_column, setitem; simpl.
  destruct (String.eqb name n) eqn:E.
  - apply String.eqb_eq in E. subst n. now rewrite assoc_set_col_same.
  - now rewrite assoc_set_col_other.
Qed.

Lemma has_column_rows_where df m n :
  has_column (rows_where df m) n = has_column df n.
Proof.
  unfold has_column, rows_where; simpl. rewrite assoc_rows_where.
  now destruct (assoc n (columns df)).
Qed.

Lemma has_column_assoc df n c :
  assoc n (columns df) = Some c -> has_column df n = true.
Proof. unfold has_column. now intros ->. Qed.

Lemma project_names df names cols :
  project df names = Ok cols -> map fst cols = names.
Proof.
  revert cols. induction names as [|n names IH]; intros cols; simpl.
  - intros H. now injection H as <-.
  - destruct (getitem df n) as [c|e]; simpl; [|discriminate].
    destruct (project df names) as [rest|e]; simpl; [|discriminate].
    intros H. injection H as <-. simpl. f_equal. now apply IH.
Qed.

(** The names of the output: the names of the schema that the table before
    the projection has. *)
Lemma output_names parse_date df out ty sd de no :
  assoc "Type" (columns df) = Some ty ->
  assoc "Shipment Date" (columns df) = Some sd ->
  assoc "Description" (columns df) = Some de ->
  assoc "No." (columns df) = Some no ->
  clean_data parse_date df = Ok out ->
  column_names out
  = filter (has_column (before_projection parse_date df ty sd de no))
      output_columns.
Proof.
  intros Hty Hsd Hde Hno Hrun.
  rewrite (clean_data_staged parse_date df Hty Hsd Hde Hno) in Hrun.
  unfold getitems in Hrun.
  destruct (project _ _) as [cols|e] eqn:Hp; simpl in Hrun; [|discriminate].
  injection Hrun as <-. unfold column_names. cbn [columns].
  exact (project_names _ _ Hp).
Qed.

Lemma has_column_before_projection parse_date df ty sd de no n :
  has_column (before_projection parse_date df ty sd de no) n
  = (String.eqb "No." n || (String.eqb "Description" n
     || (String.eqb "Order_Date" n || (String.eqb "Order_No" n
     || (String.eqb "Order_Date" n || (String.eqb "Order_No" n
     || (String.eqb "Shipment_Date" n || (String.eqb "CID" n
     || (String.eqb "Shipment_Date" n || (String.eqb "CID" n
     || (String.eqb "Customer_Name" n || (String.eqb "Type" n
     || (String.eqb "Customer_Name" n || has_column df n))))))))))))).
Proof.
  unfold before_projection.
  now rewrite !has_column_rows_where, !has_column_setitem,
    !has_column_rows_where, !has_column_setitem.
Qed.


Lemma no_description_reported :
  clean_data month_first no_description = KeyError "Description".
Proof. vm_compute. reflexivity. Qed.

(** X2 - Output schema.  The columns of the output are the columns of the
    fixed schema, in the schema's order, that the pipeline derives or that
    the input has: an optional column absent from the input is left out
    without an error, and a column outside the schema is dropped. *)
Theorem output_schema parse_date df out :
  clean_data parse_date df = Ok out ->
  column_names out
  = filter (fun n => existsb (String.eqb n) derived_columns || has_column df n)
      output_columns.
Proof.
  intros Hrun.
  destruct (clean_data_ok_inv _ _ Hrun) as [ty [sd [de [no [Hty [Hsd [Hde Hno]]]]]]].
  rewrite (@output_names parse_date df out ty sd de no Hty Hsd Hde Hno Hrun).
  apply filter_ext. intros n.
  rewrite has_column_before_projection.
  pose proof (has_column_assoc df _ Hty) as Bt.
  pose proof (has_column_assoc df _ Hde) as Bd.
  pose proof (has_column_assoc df _ Hno) as Bn.
  unfold derived_columns. cbn [existsb].
  rewrite !(String.eqb_sym n).
  destruct (String.eqb "No." n) eqn:E1;
    [apply String.eqb_eq in E1; subst n; rewrite Bn; reflexivity|].
  destruct (String.eqb "Description" n) eqn:E2;
    [apply String.eqb_eq in E2; subst n; rewrite Bd; reflexivity|].
  destruct (String.eqb "Type" n) eqn:E3;
    [apply String.eqb_eq in E3; subst n; rewrite Bt;
     now rewrite !orb_true_r|].
  destruct (String.eqb "CID" n), (String.eqb "Shipment_Date" n),
    (String.eqb "Customer_Name" n), (String.eqb "Order_No" n),
    (String.eqb "Order_Date" n); reflexivity.
Qed.

Lemma output_schema_witness :
  clean_data month_first orders = Ok orders_cleaned /\
  column_names orders_cleaned
  = ["CID"; "Shipment_Date"; "Customer_Name"; "Type"; "No.";
     "Order_No"; "Order_Date"; "Description"; "Quantity"].
Proof.
  split; [exact orders_run|].
  exact (@output_schema month_first orders orders_cleaned orders_run).
Defined.

(** ** Rows and cells of the output *)

Section Output.

Variable parse_date : string -> option date.
Variables (df out : DataFrame) (ty sd de no : series).
Hypothesis Hwf : well_formed df.
Hypothesis Hty : assoc "Type" (columns df) = Some ty.
Hypothesis Hsd : assoc "Shipment Date" (columns df) = Some sd.
Hypothesis Hde : assoc "Description" (columns df) = Some de.
Hypothesis Hno : assoc "No." (columns df) = Some no.
Hypothesis Hrun : clean_data parse_date df = Ok out.

Lemma output_index : index out = select (kept no de) (index df).
Proof.
  pose proof Hrun as H.
  rewrite (clean_data_staged parse_date df Hty Hsd Hde Hno) in H.
  unfold getitems in H.
  destruct (project _ _) as [cols|e]; simpl in H; [|discriminate].
  injection H as <-. cbn [index before_projection rows_where setitem].
  now rewrite select_select.
Qed.

Lemma output_rows k : In k (index out) <-> nth_error (kept no de) k = Some true.
Proof.
  destruct (clean_data_rows parse_date Hwf Hty Hsd Hde Hno) as [o [Ho [Hin _]]].
  rewrite Hrun in Ho. injection Ho as <-. apply Hin.
Qed.

Lemma output_row_bound k : In k (index out) -> k < nrows df.
Proof.
  intros Hk. apply output_rows in Hk.
  rewrite <- (kept_length Hwf Hde Hno). apply nth_error_Some. congruence.
Qed.

(** A column of the schema that the table before the projection holds as a
    selection of a full-length series: the output row [k] holds the cell at
    position [k] of that series. *)
Lemma output_column n full k :
  existsb (String.eqb n) output_columns = true ->
  assoc n (columns (before_projection parse_date df ty sd de no))
  = Some (select (map notna (select (unmarked no) (description_clean de)))
            (select (unmarked no) full)) ->
  length full = nrows df ->
  In k (index out) ->
  loc out k n = nth_error full k.
Proof.
  intros Hn Ha Hl Hk.
  pose proof (proj1 (output_rows k) Hk) as Hkept.
  pose proof Hrun as H.
  rewrite (clean_data_staged parse_date df Hty Hsd Hde Hno) in H.
  destruct (getitems_available (before_projection parse_date df ty sd de no)
              output_columns) as [cols [Hg Hc]].
  rewrite Hg in H. injection H as <-.
  specialize (Hc n). rewrite Hn, Ha in Hc.
  rewrite select_select in Hc. fold (kept no de) in Hc.
  cbn [index before_projection rows_where setitem].
  rewrite select_select. fold (kept no de).
  now apply (loc_selected Hwf Hde Hno).
Qed.

End Output.

(** X3 - Pass-through columns.  A column of the schema that the pipeline
    neither reads nor writes (Quantity, OutstandingQuantity, ...) reaches the
    output unchanged: every output row holds the cell its input row held, and
    the column is absent from the output when the input has none. *)
Theorem passthrough_unchanged parse_date df out n k :
  well_formed df ->
  clean_data parse_date df = Ok out ->
  In n passthrough_columns ->
  In k (index out) ->
  loc out k n = loc df k n.
Proof.
  intros Hwf Hrun Hn Hk.
  destruct (clean_data_ok_inv _ _ Hrun) as [ty [sd [de [no [Hty [Hsd [Hde Hno]]]]]]].
  assert (Ha : assoc n (columns (before_projection parse_date df ty sd de no))
               = option_map
                   (fun c => select (map notna (select (unmarked no)
                                                  (description_clean de)))
                               (select (unmarked no) c))
                   (assoc n (columns df))).
  { unfold before_projection, rows_where, setitem; cbn [columns index].
    simpl in Hn.
    repeat (destruct Hn as [<-|Hn];
      [repeat first [ rewrite assoc_rows_where
                    | rewrite assoc_set_col_other by reflexivity ];
       match goal with
       | |- context [assoc ?x (columns df)] =>
           destruct (assoc x (columns df)); reflexivity
       end|]).
    contradiction. }
  assert (Hs : existsb (String.eqb n) output_columns = true).
  { simpl in Hn.
    repeat (destruct Hn as [<-|Hn]; [reflexivity|]). contradiction. }
  destruct (assoc n (columns df)) as [c|] eqn:Hc; cbn [option_map] in Ha.
  - rewrite (loc_input _ k Hwf Hc).
    apply (@output_column parse_date df out ty sd de no
             Hwf Hty Hsd Hde Hno Hrun n c k Hs Ha); [|exact Hk].
    exact (well_formed_length _ Hwf Hc).
  - unfold loc at 2. rewrite Hc.
    pose proof Hrun as H.
    rewrite (clean_data_staged parse_date df Hty Hsd Hde Hno) in H.
    destruct (getitems_available (before_projection parse_date df ty sd de no)
                output_columns) as [cols [Hg Hcols]].
    rewrite Hg in H. injection H as <-.
    unfold loc. cbn [columns]. now rewrite Hcols, Hs, Ha.
Qed.

Lemma passthrough_unchanged_witness :
  well_formed orders /\
  clean_data month_first orders = Ok orders_cleaned /\
  In "Quantity" passthrough_columns /\
  In 3 (index orders_cleaned) /\
  loc orders_cleaned 3 "Quantity" = loc orders 3 "Quantity".
Proof.
  split; [exact orders_well_formed|]. split; [exact orders_run|].
  split; [simpl; auto|]. split; [simpl; auto|].
  apply (@passthrough_unchanged month_first orders orders_cleaned "Quantity" 3);
    [exact orders_well_formed|exact orders_run|simpl; auto|simpl; auto].
Defined.

Lemma select_length_le (A : Type) m (l : list A) : length (select m l) <= length l.
Proof.
  revert m. induction l as [|x l IH]; intros [|b m]; simpl; try lia.
  specialize (IH m). destruct b; simpl; lia.
Qed.

Lemma select_Forall (A : Type) (P : A -> Prop) m (l : list A) :
  Forall P l -> Forall P (select m l).
Proof.
  intros H. rewrite Forall_forall in *. intros x Hx. apply H.
  eapply In_select. exact Hx.
Qed.

Lemma select_sorted m (l : list nat) :
  StronglySorted lt l -> StronglySorted lt (select m l).
Proof.
  revert m. induction l as [|x l IH]; intros m H; destruct m as [|b m];
    simpl; try constructor.
  apply StronglySorted_inv in H. destruct H as [Hs Hf].
  destruct b; [|now apply IH].
  constructor; [now apply IH|now apply select_Forall].
Qed.

Lemma seq_sorted s n : StronglySorted lt (seq s n).
Proof.
  revert s. induction n as [|n IH]; intros s; simpl; constructor; auto.
  apply Forall_forall. intros x Hx. apply in_seq in Hx. lia.
Qed.

(** X4 - Row order.  The rows of the output are rows of the input, each at
    most once and in the order of the input: the pipeline only deletes rows,
    it never reorders, repeats or invents one. *)
Theorem rows_keep_their_order parse_date df out :
  well_formed df ->
  clean_data parse_date df = Ok out ->
  StronglySorted lt (index out) /\
  NoDup (index out) /\
  incl (index out) (index df) /\
  nrows out <= nrows df.
Proof.
  intros Hwf Hrun.
  destruct (clean_data_ok_inv _ _ Hrun) as [ty [sd [de [no [Hty [Hsd [Hde Hno]]]]]]].
  pose proof (@output_index parse_date df out ty sd de no
                Hty Hsd Hde Hno Hrun) as Hi.
  destruct (clean_data_output_shape _ Hwf Hrun) as [Hnd _].
  split; [|split; [exact Hnd|split]].
  - rewrite Hi. apply select_sorted. destruct Hwf as [-> _]. apply seq_sorted.
  - rewrite Hi. intros k Hk. eapply In_select. exact Hk.
  - unfold nrows. rewrite Hi. apply select_length_le.
Qed.

Lemma rows_keep_their_order_witness :
  well_formed orders /\
  clean_data month_first orders = Ok orders_cleaned /\
  StronglySorted lt (index orders_cleaned) /\
  NoDup (index orders_cleaned) /\
  incl (index orders_cleaned) (index orders) /\
  nrows orders_cleaned <= nrows orders.
Proof.
  split; [exact orders_well_formed|]. split; [exact orders_run|].
  exact (@rows_keep_their_order month_first orders orders_cleaned
           orders_well_formed orders_run).
Defined.

(** ** What the cells of the output can be *)

Lemma filled_forall (P : cell -> Prop) src k n :
  length src = n -> k < n -> P NaN -> Forall P src ->
  exists v, nth_error (ffill src) k = Some v /\ P v.
Proof.
  intros Hl Hk Hn Hf.
  destruct (@nth_error_ffill_some src k) as [v Hv]; [lia|].
  exists v. split; [exact Hv|].
  pose proof (@ffill_from_Forall P NaN src Hn Hf) as HF.
  rewrite Forall_forall in HF. apply HF. eapply nth_error_In. exact Hv.
Qed.

Lemma to_datetime_cell_typed parse_date c :
  timestamp_or_missing (to_datetime_cell parse_date c).
Proof.
  destruct c as [|s|z|d]; simpl; try exact I.
  now destruct (parse_date s).
Qed.

Lemma customer_name_src_not_item ty :
  Forall (fun c => c <> Str "Item") (customer_name_src ty).
Proof.
  unfold customer_name_src. induction ty as [|c ty IH]; simpl; constructor; auto.
  destruct c as [|s|z|d]; simpl; try discriminate.
  destruct (String.eqb s "Item") eqn:E; simpl; [discriminate|].
  intros H. injection H as ->. discriminate E.
Qed.

(** X5 - Type and Customer_Name.  In every output row Type is the text
    "Item" or missing, and it is "Item" exactly when the input row said so;
    Customer_Name is never the text "Item". *)
Theorem type_and_customer_cells parse_date df out k :
  well_formed df ->
  clean_data parse_date df = Ok out ->
  In k (index out) ->
  (loc out k "Type" = Some (Str "Item") \/ loc out k "Type" = Some NaN) /\
  (loc out k "Type" = Some (Str "Item") <-> loc df k "Type" = Some (Str "Item")) /\
  loc out k "Customer_Name" <> Some (Str "Item").
Proof.
  intros Hwf Hrun Hk.
  destruct (clean_data_spec _ Hwf Hrun)
    as [ty [sd [de [no [[Hty _] [_ Hloc]]]]]].
  destruct (Hloc k Hk) as [Hlt [Lcn [Ltp _]]].
  pose proof (well_formed_length _ Hwf Hty) as Lt.
  rewrite (loc_input _ k Hwf Hty), Ltp.
  unfold type_clean. rewrite nth_error_where by (now rewrite length_map).
  rewrite nth_error_map.
  destruct (nth_error ty k) as [c|] eqn:Ec;
    [|apply nth_error_None in Ec; lia].
  simpl. split; [|split].
  - destruct c as [|s|z|d]; simpl; auto.
    destruct (String.eqb s "Item") eqn:E; auto.
    apply String.eqb_eq in E. subst s. auto.
  - destruct c as [|s|z|d]; simpl; try (split; discriminate).
    destruct (String.eqb s "Item") eqn:E.
    + apply String.eqb_eq in E. subst s. tauto.
    + split; [discriminate|]. intros H. injection H as ->. discriminate E.
  - rewrite Lcn.
    destruct (@filled_forall (fun c => c <> Str "Item") (customer_name_src ty)
                k (nrows df)) as [v [Hv Hp]];
      [series_length|exact Hlt|discriminate|apply customer_name_src_not_item|].
    rewrite Hv. intros H. injection H as H. contradiction.
Qed.

Lemma type_and_customer_cells_witness :
  well_formed orders /\
  clean_data month_first orders = Ok orders_cleaned /\
  In 6 (index orders_cleaned) /\
  (loc orders_cleaned 6 "Type" = Some (Str "Item") \/
   loc orders_cleaned 6 "Type" = Some NaN) /\
  (loc orders_cleaned 6 "Type" = Some (Str "Item") <->
   loc orders 6 "Type" = Some (Str "Item")) /\
  loc orders_cleaned 6 "Customer_Name" <> Some (Str "Item").
Proof.
  split; [exact orders_well_formed|]. split; [exact orders_run|].
  split; [simpl; auto|].
  apply (@type_and_customer_cells month_first orders orders_cleaned 6);
    [exact orders_well_formed|exact orders_run|simpl; auto].
Defined.

Lemma cid_src_no_date sd :
  Forall (fun c => str_contains Re.date_pattern false c = false) (cid_src sd).
Proof.
  unfold cid_src, is_date_text. induction sd as [|c sd IH]; simpl;
    constructor; auto.
  destruct (str_contains Re.date_pattern false c) eqn:E; simpl; auto.
Qed.

(** X6 - The two columns split from 'Shipment Date'.  In every output row
    Shipment_Date is a timestamp or missing, never a raw text, and CID is
    never a text that contains a date group: no value sits in the wrong one
    of the two columns. *)
Theorem shipment_columns_typed parse_date df out k :
  well_formed df ->
  clean_data parse_date df = Ok out ->
  In k (index out) ->
  (exists c, loc out k "Shipment_Date" = Some c /\ timestamp_or_missing c) /\
  (forall v, loc out k "CID" = Some (Str v) -> ~ Re.has_date_group (txt v)).
Proof.
  intros Hwf Hrun Hk.
  destruct (clean_data_spec _ Hwf Hrun)
    as [ty [sd [de [no [[_ [Hsd _]] [_ Hloc]]]]]].
  destruct (Hloc k Hk) as [Hlt [_ [_ [Lcid [Lsh _]]]]].
  pose proof (well_formed_length _ Hwf Hsd) as Ls.
  split.
  - rewrite Lsh. unfold to_datetime. rewrite nth_error_map.
    destruct (@nth_error_ffill_some (shipment_src sd) k) as [v Hv];
      [series_length; lia|].
    rewrite Hv. simpl. eexists. split; [reflexivity|].
    apply to_datetime_cell_typed.
  - intros v Hv Hg. rewrite Lcid in Hv.
    destruct (@filled_forall
                (fun c => str_contains Re.date_pattern false c = false)
                (cid_src sd) k (nrows df)) as [c [Hc Hp]];
      [series_length|exact Hlt|reflexivity|apply cid_src_no_date|].
    assert (c = Str v) by congruence. subst c. simpl in Hp.
    apply ReFacts.contains_date_pattern in Hg. congruence.
Qed.

Lemma shipment_columns_typed_witness :
  well_formed orders /\
  clean_data month_first orders = Ok orders_cleaned /\
  In 2 (index orders_cleaned) /\
  (exists c, loc orders_cleaned 2 "Shipment_Date" = Some c /\
             timestamp_or_missing c) /\
  (forall v, loc orders_cleaned 2 "CID" = Some (Str v) ->
             ~ Re.has_date_group (txt v)).
Proof.
  split; [exact orders_well_formed|]. split; [exact orders_run|].
  split; [simpl; auto|].
  apply (@shipment_columns_typed month_first orders orders_cleaned 2);
    [exact orders_well_formed|exact orders_run|simpl; auto].
Defined.

(** ** The order number *)

(** A match of the order-header pattern starts with a run of at least five
    digits, its first group, whose end is the second mark. *)
Lemma order_match_number suf ms rest :
  Re.match_here Re.order_pattern suf = Some (ms, rest) ->
  exists m ms',
    ms = suf :: skipn m suf :: ms' /\
    5 <= m <= Re.count_prefix Re.is_digit suf.
Proof.
  unfold Re.order_pattern, Re.Digits. cbn [Re.match_here Re.greedy_max].
  destruct (Re.backtrack _ suf 5 _) as [[ms1 rest1]|] eqn:Eb; [|discriminate].
  intros H. injection H as <- <-.
  apply ReFacts.backtrack_some in Eb. destruct Eb as [m [Hm Hk]].
  destruct (Re.backtrack _ (skipn m suf) 1 _) as [[ms2 rest2]|] eqn:Es;
    [|discriminate].
  injection Hk as <- <-.
  exists m, ms2. split; [reflexivity|exact Hm].
Qed.

Lemma between_skipn (s : Re.text) m :
  m <= length s -> Re.between s (skipn m s) = firstn m s.
Proof.
  intros H. unfold Re.between. rewrite length_skipn. f_equal. lia.
Qed.

(** The order number that [str.extract] returns is a text of at least five
    digits and nothing else. *)
Lemma order_number_digits s g1 g2 :
  extract_text Re.order_pattern s = Some (g1, g2) -> digits_at_least 5 g1.
Proof.
  unfold extract_text.
  destruct (Re.search Re.order_pattern (txt s)) as [f|] eqn:Ef; [|discriminate].
  destruct (ReFacts.search_sound _ _ Ef) as [suf [_ Hm]].
  destruct (order_match_number _ Hm) as [m [ms' [Hms Hb]]].
  unfold Re.groups2. rewrite Hms.
  destruct ms' as [|o2 [|c2 [|x l]]]; try discriminate.
  intros H. injection H as <- _.
  pose proof (ReFacts.count_prefix_le Re.is_digit suf) as Hle.
  rewrite between_skipn by lia.
  unfold digits_at_least. rewrite txt_untxt. split.
  - apply ReFacts.count_prefix_firstn. lia.
  - rewrite length_firstn. lia.
Qed.

Lemma order_no_src_digits de :
  Forall (fun c => c = NaN \/ exists g, c = Str g /\ digits_at_least 5 g)
    (order_no_src de).
Proof.
  unfold order_no_src. induction de as [|c de IH]; simpl; constructor; auto.
  destruct c as [|s|z|d]; simpl; auto.
  destruct (extract_text Re.order_pattern s) as [[g1 g2]|] eqn:E; simpl; auto.
  right. exists g1. split; [reflexivity|]. eapply order_number_digits; eauto.
Qed.

(** X7 - Order_No and Order_Date.  In every output row Order_No is missing
    or a text of digits only, at least five of them, and Order_Date is a
    timestamp or missing, never a raw text. *)
Theorem order_columns_typed parse_date df out k :
  well_formed df ->
  clean_data parse_date df = Ok out ->
  In k (index out) ->
  (loc out k "Order_No" = Some NaN \/
   exists g, loc out k "Order_No" = Some (Str g) /\ digits_at_least 5 g) /\
  (exists c, loc out k "Order_Date" = Some c /\ timestamp_or_missing c).
Proof.
  intros Hwf Hrun Hk.
  destruct (clean_data_spec _ Hwf Hrun)
    as [ty [sd [de [no [[_ [_ [Hde _]]] [_ Hloc]]]]]].
  destruct (Hloc k Hk) as [Hlt [_ [_ [_ [_ [Lon [Lod _]]]]]]].
  pose proof (well_formed_length _ Hwf Hde) as Ld.
  split.
  - destruct (@filled_forall
                (fun c => c = NaN \/ exists g, c = Str g /\ digits_at_least 5 g)
                (order_no_src de) k (nrows df)) as [c [Hc Hp]];
      [series_length|exact Hlt|now left|apply order_no_src_digits|].
    rewrite Lon, Hc. destruct Hp as [->|[g [-> Hg]]]; [now left|].
    right. exists g. auto.
  - rewrite Lod. unfold to_datetime. rewrite nth_error_map.
    destruct (@nth_error_ffill_some (order_date_src de) k) as [v Hv];
      [series_length; lia|].
    rewrite Hv. simpl. eexists. split; [reflexivity|].
    apply to_datetime_cell_typed.
Qed.

Lemma order_columns_typed_witness :
  well_formed orders /\
  clean_data month_first orders = Ok orders_cleaned /\
  In 3 (index orders_cleaned) /\
  (loc orders_cleaned 3 "Order_No" = Some NaN \/
   exists g, loc orders_cleaned 3 "Order_No" = Some (Str g) /\
             digits_at_least 5 g) /\
  (exists c, loc orders_cleaned 3 "Order_Date" = Some c /\
             timestamp_or_missing c).
Proof.
  split; [exact orders_well_formed|]. split; [exact orders_run|].
  split; [simpl; auto|].
  apply (@order_columns_typed month_first orders orders_cleaned 3);
    [exact orders_well_formed|exact orders_run|simpl; auto].
Defined.

Lemma backtrack_complete (A : Type) (k : Re.text -> option A) s lo n m x :
  lo <= m <= n -> k (skipn m s) = Some x ->
  exists y, Re.backtrack k s lo n = Some y.
Proof.
  intros Hm Hk. induction n as [|n IH]; rewrite ReFacts.backtrack_eq.
  - assert (m = 0) by lia. subst m.
    assert (E : (0 <? lo) = false) by (apply Nat.ltb_ge; lia).
    rewrite E, Hk. eauto.
  - assert (E : (S n <? lo) = false) by (apply Nat.ltb_ge; lia).
    rewrite E. destruct (k (skipn (S n) s)) as [y|] eqn:Ey; [eauto|].
    apply IH. destruct (Nat.eq_dec m (S n)) as [->|Hne]; [congruence|lia].
Qed.

(** A digit in front of a match gives a match one character earlier. *)
Lemma order_match_extends d suf x :
  Re.is_digit d = true ->
  Re.match_here Re.order_pattern suf = Some x ->
  exists y, Re.match_here Re.order_pattern (d :: suf) = Some y.
Proof.
  intros Hd. unfold Re.order_pattern, Re.Digits.
  cbn [Re.match_here Re.greedy_max Re.count_prefix]. rewrite Hd.
  destruct (Re.backtrack _ suf 5 _) as [[ms1 rest1]|] eqn:Eb; [|discriminate].
  intros _.
  apply ReFacts.backtrack_some in Eb. destruct Eb as [m [Hm Hk]].
  match goal with
  | |- context [Re.backtrack ?k (d :: suf) 5 ?n] =>
      destruct (@backtrack_complete _ k (d :: suf) 5 n (S m) (ms1, rest1))
        as [[ms rest] Hy]; [lia|exact Hk|rewrite Hy; eauto]
  end.
Qed.

(** X8 - The order number is never cut short.  The first match of the
    order-header pattern starts at the beginning of a run of digits (the
    character before it, if any, is no digit) and its number is followed by
    white space: Order_No is a whole run of digits of the Description. *)
Theorem order_number_whole_run s f :
  Re.search Re.order_pattern (txt s) = Some f ->
  (forall p d, Re.before f = p ++ [d] -> Re.is_digit d = false) /\
  exists g1 g2 w rest,
    Re.groups2 f = Some (g1, g2) /\
    txt s = Re.before f ++ g1 ++ w :: rest /\
    Re.is_space w = true /\
    forallb Re.is_digit g1 = true.
Proof.
  intros Hf. destruct (ReFacts.search_sound _ _ Hf) as [suf [Hs Hm]]. split.
  - intros p d Hb. destruct (Re.is_digit d) eqn:Hd; [|reflexivity].
    exfalso.
    destruct (order_match_extends d _ Hd Hm) as [y Hy].
    rewrite (@ReFacts.search_leftmost Re.order_pattern (txt s) f Hf p (d :: suf))
      in Hy; [discriminate| |].
    + rewrite Hs, Hb, <- app_assoc. reflexivity.
    + rewrite Hb, length_app. simpl. lia.
  - pose proof Hm as Hm'. revert Hm'.
    unfold Re.order_pattern, Re.Digits.
    cbn [Re.match_here Re.greedy_max].
    destruct (Re.backtrack _ suf 5 _) as [[ms1 rest1]|] eqn:Eb; [|discriminate].
    intros H. injection H as Hms Hrest.
    apply ReFacts.backtrack_some in Eb. destruct Eb as [m [Hm5 Hk]].
    destruct (Re.backtrack _ (skipn m suf) 1 _) as [[ms2 rest2]|] eqn:Es;
      [|discriminate].
    injection Hk as Hms1 _.
    apply ReFacts.backtrack_some in Es. destruct Es as [j [Hj _]].
    pose proof (ReFacts.count_prefix_le Re.is_digit suf) as Hle.
    assert (Hsp : exists w rest, skipn m suf = w :: rest /\ Re.is_space w = true).
    { destruct (skipn m suf) as [|w rest]; simpl in Hj; [lia|].
      destruct (Re.is_space w) eqn:Ew; [eauto|simpl in Hj; lia]. }
    destruct Hsp as [w [rest [Hsk Hw]]].
    destruct (ReFacts.order_groups _ Hf) as [g1 [g2 Hg]].
    exists g1, g2, w, rest. split; [exact Hg|].
    assert (Hg1 : g1 = firstn m suf).
    { unfold Re.groups2 in Hg. rewrite <- Hms, <- Hms1 in Hg.
      destruct ms2 as [|o2 [|c2 [|x l]]]; try discriminate.
      injection Hg as <- _. apply between_skipn. lia. }
    subst g1. split; [|split; [exact Hw|]].
    + rewrite Hs at 1. f_equal. rewrite <- Hsk. symmetry. apply firstn_skipn.
    + apply ReFacts.count_prefix_firstn. lia.
Qed.

Lemma order_number_whole_run_witness :
  Re.search Re.order_pattern (txt "12345 3/4/2024 and 67890 5/6/2025 x")
  = Some two_headers_first /\
  (forall p d, Re.before two_headers_first = p ++ [d] -> Re.is_digit d = false) /\
  exists g1 g2 w rest,
    Re.groups2 two_headers_first = Some (g1, g2) /\
    txt "12345 3/4/2024 and 67890 5/6/2025 x"
    = Re.before two_headers_first ++ g1 ++ w :: rest /\
    Re.is_space w = true /\
    forallb Re.is_digit g1 = true.
Proof.
  split; [vm_compute; reflexivity|].
  apply (@order_number_whole_run "12345 3/4/2024 and 67890 5/6/2025 x"
           two_headers_first).
  vm_compute. reflexivity.
Defined.

(** ** The description *)

Lemma lstrip_head s :
  match Re.lstrip s with [] => True | c :: _ => Re.is_space c = false end.
Proof.
  induction s as [|c s IH]; simpl; [exact I|].
  destruct (Re.is_space c) eqn:E; [exact IH|exact E].
Qed.

Lemma lstrip_split s :
  exists p, s = p ++ Re.lstrip s /\ forallb Re.is_space p = true.
Proof.
  induction s as [|c s [p [Hs Hp]]]; simpl.
  - exists []. auto.
  - destruct (Re.is_space c) eqn:E.
    + exists (c :: p). simpl. rewrite E, Hp. split; [now f_equal|reflexivity].
    + exists []. auto.
Qed.

Lemma rstrip_split s :
  exists q, s = Re.rstrip s ++ q /\ forallb Re.is_space q = true.
Proof.
  destruct (lstrip_split (rev s)) as [p [Hs Hp]].
  exists (rev p). split.
  - unfold Re.rstrip. rewrite <- rev_app_distr, <- Hs. symmetry.
    apply rev_involutive.
  - rewrite forallb_forall in *. intros x Hx. apply Hp. now apply in_rev.
Qed.

(** [strip] takes white space off both ends, and only white space. *)
Lemma strip_split s :
  exists p q, s = p ++ Re.strip s ++ q /\
              forallb Re.is_space p = true /\ forallb Re.is_space q = true.
Proof.
  destruct (lstrip_split s) as [p [Hs Hp]].
  destruct (rstrip_split (Re.lstrip s)) as [q [Hr Hq]].
  exists p, q. unfold Re.strip. split; [|auto]. now rewrite <- Hr.
Qed.

Lemma strip_trimmed s : trimmed (Re.strip s).
Proof.
  unfold trimmed, Re.strip. split.
  - destruct (rstrip_split (Re.lstrip s)) as [q [Hr _]].
    pose proof (lstrip_head s) as Hh.
    destruct (Re.rstrip (Re.lstrip s)) as [|c t]; [exact I|].
    rewrite Hr in Hh. exact Hh.
  - unfold Re.rstrip. rewrite rev_involutive. apply lstrip_head.
Qed.

(** X9 - The description is trimmed.  In every output row the Description
    is a text with no white space at its start or at its end. *)
Theorem description_trimmed parse_date df out k :
  well_formed df ->
  clean_data parse_date df = Ok out ->
  In k (index out) ->
  exists s, loc out k "Description" = Some (Str s) /\ trimmed (txt s).
Proof.
  intros Hwf Hrun Hk.
  destruct (clean_data_spec _ Hwf Hrun)
    as [ty [sd [de [no [[_ [_ [Hde _]]] [Hin Hloc]]]]]].
  destruct (Hloc k Hk) as [_ [_ [_ [_ [_ [_ [_ [Lds _]]]]]]]].
  apply Hin in Hk. destruct Hk as [cn [cd [_ [_ [Hd Hnn]]]]].
  rewrite (loc_input _ k Hwf Hde) in Hd.
  rewrite Lds, (nth_error_description_clean _ _ Hd).
  destruct cd as [|t|z|d]; try (exfalso; apply Hnn; reflexivity).
  unfold description_after. simpl. eexists. split; [reflexivity|].
  rewrite txt_untxt. apply strip_trimmed.
Qed.

Lemma description_trimmed_witness :
  well_formed orders /\
  clean_data month_first orders = Ok orders_cleaned /\
  In 2 (index orders_cleaned) /\
  exists s, loc orders_cleaned 2 "Description" = Some (Str s) /\
            trimmed (txt s).
Proof.
  split; [exact orders_well_formed|]. split; [exact orders_run|].
  split; [simpl; auto|].
  apply (@description_trimmed month_first orders orders_cleaned 2);
    [exact orders_well_formed|exact orders_run|simpl; auto].
Defined.

(** X10 - A description without an order header.  When the Description of
    a row holds no order header the output keeps its text, less the white
    space at its two ends, and the row brings no order number or date of its
    own. *)
Theorem description_without_header parse_date df out de k s :
  well_formed df ->
  assoc "Description" (columns df) = Some de ->
  clean_data parse_date df = Ok out ->
  In k (index out) ->
  loc df k "Description" = Some (Str s) ->
  Re.search Re.order_pattern (txt s) = None ->
  loc out k "Description" = Some (Str (untxt (Re.strip (txt s)))) /\
  (exists p q, txt s = p ++ Re.strip (txt s) ++ q /\
               forallb Re.is_space p = true /\ forallb Re.is_space q = true) /\
  nth_error (order_no_src de) k = Some NaN /\
  nth_error (order_date_src de) k = Some NaN.
Proof.
  intros Hwf Hde Hrun Hk Hs Hn.
  destruct (clean_data_spec _ Hwf Hrun)
    as [ty [sd [de' [no [[_ [_ [Hde' _]]] [_ Hloc]]]]]].
  assert (de' = de) by congruence. subst de'.
  destruct (Hloc k Hk) as [_ [_ [_ [_ [_ [_ [_ [Lds _]]]]]]]].
  rewrite (loc_input _ k Hwf Hde) in Hs.
  split; [|split; [apply strip_split|]].
  - rewrite Lds, (nth_error_description_clean _ _ Hs).
    unfold description_after. simpl.
    now rewrite txt_untxt, order_sub_step, Hn.
  - destruct (nth_error_extract _ _ Hs) as [E1 E2].
    unfold str_extract, extract_text in E1, E2. rewrite Hn in E1, E2.
    auto.
Qed.

Lemma description_without_header_witness :
  well_formed orders /\
  assoc "Description" (columns orders)
  = Some [NaN; Str "55555 6/7/2023"; Str "widget"; Str "gadget";
          NaN; Str "66666 8/9/2023"; Str "bolt"] /\
  clean_data month_first orders = Ok orders_cleaned /\
  In 2 (index orders_cleaned) /\
  loc orders 2 "Description" = Some (Str "widget") /\
  Re.search Re.order_pattern (txt "widget") = None /\
  loc orders_cleaned 2 "Description" = Some (Str "widget") /\
  (exists p q, txt "widget" = p ++ Re.strip (txt "widget") ++ q /\
               forallb Re.is_space p = true /\ forallb Re.is_space q = true) /\
  nth_error (order_no_src
               [NaN; Str "55555 6/7/2023"; Str "widget"; Str "gadget";
                NaN; Str "66666 8/9/2023"; Str "bolt"]) 2 = Some NaN /\
  nth_error (order_date_src
               [NaN; Str "55555 6/7/2023"; Str "widget"; Str "gadget";
                NaN; Str "66666 8/9/2023"; Str "bolt"]) 2 = Some NaN.
Proof.
  split; [exact orders_well_formed|]. split; [reflexivity|].
  split; [exact orders_run|]. split; [simpl; auto|].
  split; [reflexivity|]. split; [vm_compute; reflexivity|].
  apply (@description_without_header month_first orders orders_cleaned _ 2
           "widget");
    [exact orders_well_formed|reflexivity|exact orders_run|simpl; auto
    |reflexivity|vm_compute; reflexivity].
Defined.

(** ** Filled cells *)

(** A filled cell is non-missing exactly when some cell at or above it
    is. *)
Lemma ffill_filled_iff s k :
  k < length s ->
  (exists v, nth_error (ffill s) k = Some v /\ v <> NaN) <->
  (exists j c, j <= k /\ nth_error s j = Some c /\ c <> NaN).
Proof.
  intros Hk. split.
  - intros [v [Hv Hn]]. apply ffill_nearest in Hv.
    destruct Hv as [[j [Hj [Hs [_ _]]]]|[Hv _]]; [eauto|contradiction].
  - intros [j [c [Hj [Hs Hc]]]].
    destruct (nth_error_ffill_some s Hk) as [v Hv].
    exists v. split; [exact Hv|]. apply ffill_nearest in Hv.
    destruct Hv as [[j' [_ [_ [Hn _]]]]|[_ Hall]]; [exact Hn|].
    rewrite (Hall j Hj) in Hs. injection Hs as <-. contradiction.
Qed.

Lemma filled_iff (src col : series) (header : cell -> Prop) k n :
  length src = n -> length col = n -> k < n ->
  (forall j c, nth_error col j = Some c ->
               exists v, nth_error src j = Some v /\ (v <> NaN <-> header c)) ->
  (exists v, nth_error (ffill src) k = Some v /\ v <> NaN) <->
  (exists j c, j <= k /\ nth_error col j = Some c /\ header c).
Proof.
  intros Ls Lc Hk Hcell. rewrite ffill_filled_iff by lia. split.
  - intros [j [v [Hj [Hv Hn]]]].
    destruct (nth_error col j) as [c|] eqn:Ec;
      [|apply nth_error_None in Ec; lia].
    destruct (Hcell j c Ec) as [v' [Hv' Hh]].
    assert (v' = v) by congruence. subst v'.
    exists j, c. repeat split; auto. now apply Hh.
  - intros [j [c [Hj [Hc Hh]]]].
    destruct (Hcell j c Hc) as [v [Hv Hiff]].
    exists j, v. repeat split; auto. now apply Hiff.
Qed.

Lemma customer_src_cell ty j c :
  nth_error ty j = Some c ->
  exists v, nth_error (customer_name_src ty) j = Some v /\
            (v <> NaN <-> c <> NaN /\ c <> Str "Item").
Proof.
  intros H. unfold customer_name_src.
  rewrite nth_error_where by (now rewrite length_map).
  rewrite nth_error_map, H. simpl.
  destruct c as [|s|z|d]; simpl.
  - eexists. split; [reflexivity|]. tauto.
  - destruct (String.eqb s "Item") eqn:E; simpl; eexists;
      (split; [reflexivity|]).
    + apply String.eqb_eq in E. subst s. tauto.
    + split; [|discriminate]. intros _. split; [discriminate|].
      intros H'. injection H' as ->. discriminate E.
  - eexists. split; [reflexivity|]. split; [|discriminate].
    intros _. split; discriminate.
  - eexists. split; [reflexivity|]. split; [|discriminate].
    intros _. split; discriminate.
Qed.

Lemma cid_src_cell sd j c :
  nth_error sd j = Some c ->
  exists v, nth_error (cid_src sd) j = Some v /\
            (v <> NaN <->
             c <> NaN /\ str_contains Re.date_pattern false c = false).
Proof.
  intros H. unfold cid_src, is_date_text.
  rewrite nth_error_where by (now rewrite !length_map).
  rewrite !nth_error_map, H. simpl.
  destruct (str_contains Re.date_pattern false c) eqn:E; simpl;
    eexists; (split; [reflexivity|]).
  - split; [congruence|]. intros [_ H']. discriminate.
  - tauto.
Qed.

Lemma order_no_src_cell de j c :
  nth_error de j = Some c ->
  exists v, nth_error (order_no_src de) j = Some v /\
            (v <> NaN <->
             exists s g1 g2, c = Str s /\
                             extract_text Re.order_pattern s = Some (g1, g2)).
Proof.
  intros H. destruct (nth_error_extract _ _ H) as [E _].
  eexists. split; [exact E|].
  destruct c as [|s|z|d]; simpl;
    try (split; [congruence|]; intros [s' [g1 [g2 [H' _]]]]; discriminate).
  destruct (extract_text Re.order_pattern s) as [[g1 g2]|] eqn:Ee; simpl.
  - split; [eauto|discriminate].
  - split; [congruence|]. intros [s' [g1 [g2 [H1 H2]]]].
    injection H1 as <-. congruence.
Qed.

(** X11 - Filled exactly from the first header on.  An output row has a
    Customer_Name exactly when a header row (a Type that is neither missing
    nor "Item") stands at or above it in the input; it has a CID exactly
    when a row with a 'Shipment Date' value that is no date stands at or
    above it; it has an Order_No exactly when a row with an order header in
    its Description stands at or above it. *)
Theorem filled_from_first_header parse_date df out k :
  well_formed df ->
  clean_data parse_date df = Ok out ->
  In k (index out) ->
  ((exists v, loc out k "Customer_Name" = Some v /\ v <> NaN) <->
   (exists j c, j <= k /\ loc df j "Type" = Some c /\
                c <> NaN /\ c <> Str "Item")) /\
  ((exists v, loc out k "CID" = Some v /\ v <> NaN) <->
   (exists j c, j <= k /\ loc df j "Shipment Date" = Some c /\
                c <> NaN /\ str_contains Re.date_pattern false c = false)) /\
  ((exists v, loc out k "Order_No" = Some v /\ v <> NaN) <->
   (exists j c, j <= k /\ loc df j "Description" = Some c /\
                exists s g1 g2, c = Str s /\
                  extract_text Re.order_pattern s = Some (g1, g2))).
Proof.
  intros Hwf Hrun Hk.
  destruct (clean_data_spec _ Hwf Hrun)
    as [ty [sd [de [no [[Hty [Hsd [Hde _]]] [_ Hloc]]]]]].
  destruct (Hloc k Hk) as [Hlt [Lcn [_ [Lcid [_ [Lon _]]]]]].
  pose proof (well_formed_length _ Hwf Hty) as Lt.
  pose proof (well_formed_length _ Hwf Hsd) as Ls.
  pose proof (well_formed_length _ Hwf Hde) as Ld.
  rewrite Lcn, Lcid, Lon.
  split; [|split].
  - rewrite (@filled_iff (customer_name_src ty) ty
               (fun c => c <> NaN /\ c <> Str "Item") k (nrows df));
      [|series_length|exact Lt|exact Hlt|apply customer_src_cell].
    split; intros [j [c H]]; exists j, c;
      rewrite (loc_input _ j Hwf Hty) in *; exact H.
  - rewrite (@filled_iff (cid_src sd) sd
               (fun c => c <> NaN /\
                         str_contains Re.date_pattern false c = false)
               k (nrows df));
      [|series_length|exact Ls|exact Hlt|apply cid_src_cell].
    split; intros [j [c H]]; exists j, c;
      rewrite (loc_input _ j Hwf Hsd) in *; exact H.
  - rewrite (@filled_iff (order_no_src de) de
               (fun c => exists s g1 g2, c = Str s /\
                           extract_text Re.order_pattern s = Some (g1, g2))
               k (nrows df));
      [|series_length|exact Ld|exact Hlt|apply order_no_src_cell].
    split; intros [j [c H]]; exists j, c;
      rewrite (loc_input _ j Hwf Hde) in *; exact H.
Qed.

Lemma filled_from_first_header_witness :
  well_formed near_markers /\
  clean_data month_first near_markers = Ok near_markers_cleaned /\
  In 2 (index near_markers_cleaned) /\
  ((exists v, loc near_markers_cleaned 2 "Customer_Name" = Some v /\ v <> NaN) <->
   (exists j c, j <= 2 /\ loc near_markers j "Type" = Some c /\
                c <> NaN /\ c <> Str "Item")) /\
  ((exists v, loc near_markers_cleaned 2 "CID" = Some v /\ v <> NaN) <->
   (exists j c, j <= 2 /\ loc near_markers j "Shipment Date" = Some c /\
                c <> NaN /\ str_contains Re.date_pattern false c = false)) /\
  ((exists v, loc near_markers_cleaned 2 "Order_No" = Some v /\ v <> NaN) <->
   (exists j c, j <= 2 /\ loc near_markers j "Description" = Some c /\
                exists s g1 g2, c = Str s /\
                  extract_text Re.order_pattern s = Some (g1, g2))).
Proof.
  split; [exact near_markers_well_formed|]. split; [exact near_markers_run|].
  split; [simpl; auto|].
  apply (@filled_from_first_header month_first near_markers
           near_markers_cleaned 2);
    [exact near_markers_well_formed|exact near_markers_run|simpl; auto].
Defined.

(** X12 - Filling is idempotent.  A forward fill keeps the length of the
    column and every non-missing cell, and filling a filled column changes
    nothing. *)
Theorem ffill_idempotent s :
  length (ffill s) = length s /\
  (forall k c, nth_error s k = Some c -> c <> NaN ->
               nth_error (ffill s) k = Some c) /\
  ffill (ffill s) = ffill s.
Proof.
  split; [apply ffill_length|]. split; [intros k c; apply ffill_own|].
  unfold ffill. generalize NaN as a.
  induction s as [|c s IH]; intros a; simpl; [reflexivity|].
  assert (E : (if isna (if isna c then a else c) then a
               else (if isna c then a else c))
              = (if isna c then a else c)).
  { destruct c; simpl; try reflexivity. now destruct a. }
  rewrite E. f_equal. apply IH.
Qed.

(** ** File names *)

Lemma base64_examples :
  b64encode_text (txt "") = "" /\
  b64encode_text (txt "M") = "TQ==" /\
  b64encode_text (txt "Ma") = "TWE=" /\
  b64encode_text (txt "Man") = "TWFu" /\
  b64encode_text (txt "hello world") = "aGVsbG8gd29ybGQ=".
Proof. repeat split; vm_compute; reflexivity. Qed.

Lemma filename_examples :
  strftime_stamp new_year_noon = "20250101_120000" /\
  deli_filename new_year_noon = "SPP_Deli_20250101_120000.xlsx" /\
  foc_filename new_year_noon = "SPP_FOC_20250101_120000.xlsx".
Proof. repeat split; vm_compute; reflexivity. Qed.

Section Digits.

Local Open Scope N_scope.

Lemma digit_char_code n : N_of_ascii (digit_char n) = 48 + n mod 10.
Proof.
  unfold digit_char. apply N_ascii_embedding.
  pose proof (N.mod_lt n 10). lia.
Qed.

Lemma digit_char_inj a b : digit_char a = digit_char b -> a mod 10 = b mod 10.
Proof.
  intros H. apply (f_equal N_of_ascii) in H.
  rewrite !digit_char_code in H. lia.
Qed.

(** A number below 100, and one below 10000, from its decimal digits. *)
Lemma two_digits n : n < 100 -> n = 10 * ((n / 10) mod 10) + n mod 10.
Proof.
  intros Hn. pose proof (N.div_mod n 10).
  assert (n / 10 < 10) by (apply N.Div0.div_lt_upper_bound; lia).
  rewrite (N.mod_small (n / 10)) by lia. lia.
Qed.

Lemma four_digits n :
  n < 10000 ->
  n = 1000 * ((n / 1000) mod 10) + 100 * ((n / 100) mod 10)
      + 10 * ((n / 10) mod 10) + n mod 10.
Proof.
  intros Hn.
  pose proof (N.div_mod n 10). pose proof (N.div_mod (n / 10) 10).
  pose proof (N.div_mod (n / 100) 10).
  replace (n / 10 / 10) with (n / 100) in * by (now rewrite N.Div0.div_div).
  replace (n / 100 / 10) with (n / 1000) in * by (now rewrite N.Div0.div_div).
  assert (n / 1000 < 10) by (apply N.Div0.div_lt_upper_bound; lia).
  rewrite (N.mod_small (n / 1000)) by lia. lia.
Qed.

Lemma pad2_inj a b : a < 100 -> b < 100 -> pad2 a = pad2 b -> a = b.
Proof.
  intros Ha Hb H. unfold pad2 in H. injection H as H1 H2.
  apply digit_char_inj in H1, H2.
  rewrite (two_digits Ha), (two_digits Hb). congruence.
Qed.

Lemma pad4_inj a b : a < 10000 -> b < 10000 -> pad4 a = pad4 b -> a = b.
Proof.
  intros Ha Hb H. unfold pad4 in H. injection H as H1 H2 H3 H4.
  apply digit_char_inj in H1, H2, H3, H4.
  rewrite (four_digits Ha), (four_digits Hb). congruence.
Qed.

End Digits.

Lemma untxt_inj a b : untxt a = untxt b -> a = b.
Proof. intros H. rewrite <- (txt_untxt a), <- (txt_untxt b). now rewrite H. Qed.

Lemma append_inj_r (a b s : string) :
  String.length a = String.length b -> (a ++ s)%string = (b ++ s)%string -> a = b.
Proof.
  revert b. induction a as [|c a IH]; intros [|d b]; simpl; try discriminate.
  - reflexivity.
  - intros Hl H. injection Hl as Hl. injection H as -> H. f_equal. now apply IH.
Qed.

Lemma append_inj_l (p a b : string) :
  (p ++ a)%string = (p ++ b)%string -> a = b.
Proof.
  induction p as [|c p IH]; simpl; [auto|].
  intros H. injection H as H. auto.
Qed.

Lemma strftime_stamp_inj t1 t2 :
  valid_datetime t1 -> valid_datetime t2 ->
  strftime_stamp t1 = strftime_stamp t2 -> t1 = t2.
Proof.
  intros [Hy1 [Hm1 [Hd1 [Hh1 [Hn1 Hs1]]]]] [Hy2 [Hm2 [Hd2 [Hh2 [Hn2 Hs2]]]]] H.
  apply untxt_inj in H.
  destruct t1 as [y1 m1 d1 h1 n1 s1], t2 as [y2 m2 d2 h2 n2 s2]; simpl in *.
  unfold pad4, pad2 in H. simpl in H.
  injection H as Y1 Y2 Y3 Y4 M1 M2 D1 D2 H1 H2 N1 N2 S1 S2.
  assert (y1 = y2) by (apply pad4_inj; [lia|lia|unfold pad4; congruence]).
  assert (m1 = m2) by (apply pad2_inj; [lia|lia|unfold pad2; congruence]).
  assert (d1 = d2) by (apply pad2_inj; [lia|lia|unfold pad2; congruence]).
  assert (h1 = h2) by (apply pad2_inj; [lia|lia|unfold pad2; congruence]).
  assert (n1 = n2) by (apply pad2_inj; [lia|lia|unfold pad2; congruence]).
  assert (s1 = s2) by (apply pad2_inj; [lia|lia|unfold pad2; congruence]).
  subst. reflexivity.
Qed.

Lemma strftime_stamp_length t : String.length (strftime_stamp t) = 15.
Proof. reflexivity. Qed.

(** X13 - File names.  Two moments that differ in any field down to the
    second give different Deli file names and different FOC file names, and
    a Deli file name is never a FOC file name. *)
Theorem filenames_distinct t1 t2 :
  valid_datetime t1 -> valid_datetime t2 ->
  (deli_filename t1 = deli_filename t2 -> t1 = t2) /\
  (foc_filename t1 = foc_filename t2 -> t1 = t2) /\
  deli_filename t1 <> foc_filename t2.
Proof.
  intros H1 H2. unfold deli_filename, foc_filename. split; [|split].
  - intros H. apply append_inj_l, append_inj_r in H;
      [|now rewrite !strftime_stamp_length].
    now apply strftime_stamp_inj.
  - intros H. apply append_inj_l, append_inj_r in H;
      [|now rewrite !strftime_stamp_length].
    now apply strftime_stamp_inj.
  - cbn [String.append]. discriminate.
Qed.

Lemma new_year_noon_valid : valid_datetime new_year_noon.
Proof. unfold valid_datetime, new_year_noon; simpl. lia. Defined.

Lemma filenames_distinct_witness :
  valid_datetime new_year_noon /\
  valid_datetime (mkDatetime 2025 1 1 12 0 1) /\
  (deli_filename new_year_noon = deli_filename (mkDatetime 2025 1 1 12 0 1) ->
   new_year_noon = mkDatetime 2025 1 1 12 0 1) /\
  (foc_filename new_year_noon = foc_filename (mkDatetime 2025 1 1 12 0 1) ->
   new_year_noon = mkDatetime 2025 1 1 12 0 1) /\
  deli_filename new_year_noon <> foc_filename (mkDatetime 2025 1 1 12 0 1).
Proof.
  split; [exact new_year_noon_valid|].
  split; [unfold valid_datetime; simpl; lia|].
  apply (@filenames_distinct new_year_noon (mkDatetime 2025 1 1 12 0 1));
    [exact new_year_noon_valid|unfold valid_datetime; simpl; lia].
Defined.

(** ** Download links *)

Lemma txt_app (a b : string) : txt (a ++ b)%string = txt a ++ txt b.
Proof. induction a as [|c a IH]; simpl; [reflexivity|]. now f_equal. Qed.

Lemma quote_free_check t : existsb (Ascii.eqb quote) t = false -> quote_free t.
Proof.
  intros H Hin.
  assert (E : existsb (Ascii.eqb quote) t = true).
  { apply existsb_exists. exists quote. split; [exact Hin|apply Ascii.eqb_refl]. }
  congruence.
Qed.

Lemma quote_free_app a b : quote_free a -> quote_free b -> quote_free (a ++ b).
Proof. unfold quote_free. intros Ha Hb H. apply in_app_or in H. tauto. Qed.

Lemma quote_free_cons c t : c <> quote -> quote_free t -> quote_free (c :: t).
Proof. unfold quote_free. intros Hc Ht [H|H]; [now apply Hc|now apply Ht]. Qed.

Lemma digit_char_no_quote n : digit_char n <> quote.
Proof.
  intros H. apply (f_equal N_of_ascii) in H. rewrite digit_char_code in H.
  change (N_of_ascii quote) with 34%N in H.
  pose proof (N.le_0_l (n mod 10)). lia.
Qed.

Lemma split_on_nonempty sep t : split_on sep t <> [].
Proof.
  induction t as [|c t IH]; simpl; [discriminate|].
  destruct (Ascii.eqb c sep); [discriminate|].
  destruct (split_on sep t); [contradiction|discriminate].
Qed.

Lemma split_on_whole sep t : ~ In sep t -> split_on sep t = [t].
Proof.
  induction t as [|c t IH]; simpl; [reflexivity|].
  intros H. destruct (Ascii.eqb c sep) eqn:E.
  - apply Ascii.eqb_eq in E. tauto.
  - rewrite IH by tauto. reflexivity.
Qed.

Lemma split_on_app sep a rest :
  ~ In sep a -> split_on sep (a ++ sep :: rest) = a :: split_on sep rest.
Proof.
  induction a as [|c a IH]; simpl.
  - intros _. now rewrite Ascii.eqb_refl.
  - intros H. destruct (Ascii.eqb c sep) eqn:E.
    + apply Ascii.eqb_eq in E. tauto.
    + rewrite IH by tauto. reflexivity.
Qed.

Lemma stamp_quote_free t : quote_free (txt (strftime_stamp t)).
Proof.
  unfold strftime_stamp. rewrite txt_untxt. unfold pad4, pad2. simpl.
  repeat (apply quote_free_cons;
          [first [apply digit_char_no_quote|discriminate]|]).
  intros [].
Qed.

Lemma filename_quote_free t filename :
  filename = deli_filename t \/ filename = foc_filename t ->
  quote_free (txt filename).
Proof.
  intros [->| ->]; unfold deli_filename, foc_filename; rewrite !txt_app;
    (apply quote_free_app;
     [now apply quote_free_check
     |apply quote_free_app;
      [apply stamp_quote_free|now apply quote_free_check]]).
Qed.

(** The standard base64 alphabet and its padding hold no double quote. *)
Lemma base64_quote_free bs : quote_free (base64 bs).
Proof.
  assert (Hc : forall i, b64_char i <> quote).
  { intros i H. unfold b64_char in H.
    assert (Hin : In quote b64_alphabet).
    { rewrite <- H. apply nth_In.
      pose proof (N.mod_lt i 64). change (length b64_alphabet) with 64. lia. }
    revert Hin. apply quote_free_check. vm_compute. reflexivity. }
  assert (Hall : forall n bs', length bs' <= n -> quote_free (base64 bs')).
  { induction n as [|n IH]; intros bs' Hl.
    - destruct bs'; [intros []|simpl in Hl; lia].
    - destruct bs' as [|a [|b [|c rest]]]; simpl.
      + intros [].
      + repeat (apply quote_free_cons; [first [apply Hc|discriminate]|]).
        intros [].
      + repeat (apply quote_free_cons; [first [apply Hc|discriminate]|]).
        intros [].
      + repeat (apply quote_free_cons; [first [apply Hc|discriminate]|]).
        apply IH. simpl in Hl. lia. }
  apply (Hall (length bs)). lia.
Qed.

(** X14 - The download link.  Provided the encoder puts no double quote in
    its output, as base64 does not, the anchor built for a generated file
    name splits at its double quotes into exactly five parts: the payload
    and the file name are the values of its two attributes, whole and
    unaltered, whatever the table. *)
Theorem download_link_parts to_excel b64encode df t filename :
  (forall bs, quote_free (txt (b64encode bs))) ->
  filename = deli_filename t \/ filename = foc_filename t ->
  split_on quote (txt (get_download_link to_excel b64encode df filename))
  = [txt "<a href=";
     txt (link_payload to_excel b64encode df);
     txt " download=";
     txt filename;
     txt (">Download " ++ filename ++ "</a>")%string].
Proof.
  intros Hb Hf. pose proof (@filename_quote_free t filename Hf) as Hq.
  unfold get_download_link, dquote. rewrite !txt_app.
  change (txt (String quote EmptyString)) with [quote].
  cbn [app].
  rewrite split_on_app by (now apply quote_free_check).
  rewrite split_on_app.
  2:{ unfold link_payload. rewrite txt_app. apply quote_free_app;
        [now apply quote_free_check|apply Hb]. }
  rewrite split_on_app by (now apply quote_free_check).
  rewrite split_on_app by exact Hq.
  rewrite split_on_whole; [reflexivity|].
  repeat apply quote_free_app; try exact Hq; now apply quote_free_check.
Qed.

Lemma download_link_parts_witness :
  (forall bs, quote_free (txt (b64encode_text bs))) /\
  (deli_filename new_year_noon = deli_filename new_year_noon \/
   deli_filename new_year_noon = foc_filename new_year_noon) /\
  split_on quote
    (txt (get_download_link workbook_stub b64encode_text orders_cleaned
            (deli_filename new_year_noon)))
  = [txt "<a href=";
     txt (link_payload workbook_stub b64encode_text orders_cleaned);
     txt " download=";
     txt (deli_filename new_year_noon);
     txt (">Download " ++ deli_filename new_year_noon ++ "</a>")%string].
Proof.
  assert (Hb : forall bs, quote_free (txt (b64encode_text bs))).
  { intros bs. unfold b64encode_text. rewrite txt_untxt.
    apply base64_quote_free. }
  split; [exact Hb|]. split; [now left|].
  apply (@download_link_parts workbook_stub b64encode_text orders_cleaned
           new_year_noon (deli_filename new_year_noon) Hb).
  now left.
Defined.

(** ** The marker filter, exactly *)

Lemma match_marker_pattern s :
  (exists x, Re.match_here Re.marker_pattern s = Some x) <->
  exists c post, s = txt "Order No" ++ c :: post /\ Re.is_dot c = true.
Proof.
  unfold Re.marker_pattern, Re.lits, Re.Lit.
  cbn [list_ascii_of_string map app]. rewrite !ReFacts.match_fixed. split.
  - intros [x H].
    destruct s as [|c1 [|c2 [|c3 [|c4 [|c5 [|c6 [|c7 [|c8 [|c9 post]]]]]]]]];
      repeat first [ rewrite ReFacts.count_ge_cons in H
                   | rewrite ReFacts.count_ge_nil in H
                   | rewrite ReFacts.leb_0 in H
                   | progress cbn [skipn andb] in H ];
      repeat match type of H with
             | context [if ?p ?ch && _ then _ else _] =>
                 let E := fresh "E" in
                 destruct (p ch) eqn:E; cbn [andb] in H
             end;
      try discriminate.
    repeat match goal with
           | E : Ascii.eqb _ _ = true |- _ => apply Ascii.eqb_eq in E; subst
           end.
    exists c9, post. split; [reflexivity|assumption].
  - intros [c [post [-> Hc]]]. cbn [txt list_ascii_of_string app].
    ReFacts.count_chars. rewrite Hc. cbn. eauto.
Qed.

Lemma contains_marker_iff v :
  Re.contains Re.marker_pattern (txt v) = true <-> marker_text v.
Proof.
  split.
  - intros H. apply ReFacts.contains_sound in H.
    destruct H as [pre [suf [x [Hs Hm]]]].
    destruct (proj1 (match_marker_pattern suf) (ex_intro _ x Hm))
      as [c [post [-> Hc]]].
    exists pre, c, post. auto.
  - intros [pre [c [post [Hs Hc]]]]. rewrite Hs.
    now apply ReFacts.contains_marker.
Qed.

(** X15 - The marker filter removes nothing else.  A row is in the output
    exactly when its Description is a text and its 'No.' is not a text that
    holds "Order No" followed by a character other than a line feed: a
    missing 'No.', a number, or any other text never costs a row. *)
Theorem output_rows_exactly parse_date df out k :
  well_formed df ->
  clean_data parse_date df = Ok out ->
  In k (index out) <->
  (exists s, loc df k "Description" = Some (Str s)) /\
  (exists cn, loc df k "No." = Some cn /\
              forall v, cn = Str v -> ~ marker_text v).
Proof.
  intros Hwf Hrun.
  destruct (clean_data_spec _ Hwf Hrun) as [ty [sd [de [no [_ [Hin _]]]]]].
  rewrite Hin. unfold survives. split.
  - intros [cn [cd [Hn [Hm [Hd Hna]]]]]. split.
    + destruct cd as [|s|z|d];
        try (exfalso; apply Hna; reflexivity).
      eauto.
    + exists cn. split; [exact Hn|]. intros v -> Hv.
      apply contains_marker_iff in Hv. simpl in Hm. congruence.
  - intros [[s Hd] [cn [Hn Hv]]].
    exists cn, (Str s). repeat split; auto; [|discriminate].
    destruct cn as [|v|z|d]; simpl; auto.
    destruct (Re.contains Re.marker_pattern (txt v)) eqn:E; [|reflexivity].
    exfalso. apply (Hv v eq_refl). now apply contains_marker_iff.
Qed.

Lemma output_rows_exactly_witness :
  well_formed orders /\
  clean_data month_first orders = Ok orders_cleaned /\
  (In 3 (index orders_cleaned) <->
   (exists s, loc orders 3 "Description" = Some (Str s)) /\
   (exists cn, loc orders 3 "No." = Some cn /\
               forall v, cn = Str v -> ~ marker_text v)).
Proof.
  split; [exact orders_well_formed|]. split; [exact orders_run|].
  exact (@output_rows_exactly month_first orders orders_cleaned 3
           orders_well_formed orders_run).
Defined.

(** ** The date parser touches the two date columns only *)

Lemma assoc_set_col name v cols n :
  assoc n (set_col name v cols)
  = if String.eqb name n then Some v else assoc n cols.
Proof.
  destruct (String.eqb name n) eqn:E.
  - apply String.eqb_eq in E. subst n. apply assoc_set_col_same.
  - now apply assoc_set_col_other.
Qed.

(** X16 - Dates stay in their columns.  Two runs of the pipeline on the same
    table that differ only in how date texts are parsed return the same
    rows and, but for Shipment_Date and Order_Date, the same columns: no
    date text, well formed or not, changes another field or drops a row. *)
Theorem parser_touches_date_columns_only parse1 parse2 df out1 out2 :
  clean_data parse1 df = Ok out1 ->
  clean_data parse2 df = Ok out2 ->
  index out1 = index out2 /\
  column_names out1 = column_names out2 /\
  forall n, n <> "Shipment_Date" -> n <> "Order_Date" ->
            assoc n (columns out1) = assoc n (columns out2).
Proof.
  intros H1 H2.
  destruct (clean_data_ok_inv _ _ H1) as [ty [sd [de [no [Hty [Hsd [Hde Hno]]]]]]].
  split; [|split].
  - rewrite (@output_index parse1 df out1 ty sd de no Hty Hsd Hde Hno H1).
    rewrite (@output_index parse2 df out2 ty sd de no Hty Hsd Hde Hno H2).
    reflexivity.
  - rewrite (@output_names parse1 df out1 ty sd de no Hty Hsd Hde Hno H1).
    rewrite (@output_names parse2 df out2 ty sd de no Hty Hsd Hde Hno H2).
    apply filter_ext. intros n.
    now rewrite !has_column_before_projection.
  - intros n Hs Ho.
    rewrite (clean_data_staged parse1 df Hty Hsd Hde Hno) in H1.
    rewrite (clean_data_staged parse2 df Hty Hsd Hde Hno) in H2.
    destruct (getitems_available (before_projection parse1 df ty sd de no)
                output_columns) as [c1 [G1 A1]].
    destruct (getitems_available (before_projection parse2 df ty sd de no)
                output_columns) as [c2 [G2 A2]].
    rewrite G1 in H1. rewrite G2 in H2.
    injection H1 as <-. injection H2 as <-. cbn [columns].
    rewrite A1, A2.
    destruct (existsb (String.eqb n) output_columns); [|reflexivity].
    unfold before_projection, rows_where, setitem. cbn [columns index].
    rewrite !assoc_rows_where, !assoc_set_col, !assoc_rows_where,
      !assoc_set_col.
    assert (E1 : String.eqb "Shipment_Date" n = false)
      by (apply String.eqb_neq; congruence).
    assert (E2 : String.eqb "Order_Date" n = false)
      by (apply String.eqb_neq; congruence).
    rewrite E1, E2. reflexivity.
Qed.

Lemma parser_touches_date_columns_only_witness :
  clean_data month_first orders = Ok orders_cleaned /\
  (exists out2,
     clean_data (fun _ => None) orders = Ok out2 /\
     index orders_cleaned = index out2 /\
     column_names orders_cleaned = column_names out2 /\
     forall n, n <> "Shipment_Date" -> n <> "Order_Date" ->
               assoc n (columns orders_cleaned) = assoc n (columns out2)).
Proof.
  split; [exact orders_run|].
  eexists. split; [vm_compute; reflexivity|].
  apply (@parser_touches_date_columns_only month_first (fun _ => None) orders);
    [exact orders_run|vm_compute; reflexivity].
Defined.
